(** * TeenMe chat backend (app.js): authentication gate, credential store,
      message log and the chat request life cycle.

    The Express application of [app.js] is embedded as state-passing
    functions over a [World] that holds the two MongoDB collections, the
    clock, the generators for identifiers and a schedule of store faults.
    A route is a function from a request and a world to a response and the
    next world.

    Modelling conventions.
    - A field of a parsed JSON body is a [jsval]: [JUndefined] for a field
      that is absent, or a JSON scalar.  Objects and arrays in the fields the
      handlers read are not modelled; what they do is decided inside
      Mongoose's casting and query machinery.  [req.body] is an object
      ([express.json()] leaves [{}] when no body is parsed).
    - A JSON number is carried by its canonical rendering, the string that
      [String(n)] gives; [-0] and [0] both render as [0].
    - The libraries [jsonwebtoken], [uuid] and the ObjectId generator are the
      operations of the class [Platform]; what the proofs assume of them is
      stated as [jwt_roundtrip] and [uuid_fresh].
    - [console.error] and the static file server are left out. *)

From Stdlib Require Import ZArith Ascii String Bool Lia.
From stdpp Require Import base option list gmap strings fin_maps.

Local Open Scope Z_scope.

(** ** JavaScript values read from a JSON body *)

Inductive jsval : Type :=
  | JUndefined
  | JNull
  | JBool (b : bool)
  | JNum (repr : string)
  | JStr (s : string).

#[global] Instance jsval_eq_dec : EqDecision jsval.
Proof. solve_decision. Defined.

(** [!v] is [negb (truthy v)]. *)
Definition truthy (v : jsval) : bool :=
  match v with
  | JUndefined | JNull => false
  | JBool b => b
  | JNum r => negb (String.eqb r "0")
  | JStr s => negb (String.eqb s "")
  end.

(** [a === b] on the values above. *)
Definition strict_eq (a b : jsval) : bool := bool_decide (a = b).

(** The string conversion of a template literal [`${v}`]. *)
Definition to_string (v : jsval) : string :=
  match v with
  | JUndefined => "undefined"
  | JNull => "null"
  | JBool true => "true"
  | JBool false => "false"
  | JNum r => r
  | JStr s => s
  end.

(** ** Strings: [String.prototype.replace] with a string pattern *)

Fixpoint string_drop (n : nat) (s : string) : string :=
  match n, s with
  | O, _ => s
  | S n', String _ s' => string_drop n' s'
  | S _, EmptyString => EmptyString
  end.

(** [s.replace(pat, '')]: the first occurrence of [pat] in [s], wherever it
    is, is removed; later occurrences stay. *)
Fixpoint replace_first (pat s : string) : string :=
  if String.prefix pat s then string_drop (String.length pat) s
  else match s with
       | EmptyString => EmptyString
       | String c s' => String c (replace_first pat s')
       end.

(** [pat] occurs somewhere in [s]. *)
Fixpoint occurs (pat s : string) : bool :=
  String.prefix pat s ||
  match s with
  | EmptyString => false
  | String _ s' => occurs pat s'
  end.

(** [t] is a substring of [s], as a proposition. *)
Definition contains (s t : string) : Prop :=
  exists pre post : string, s = pre +:+ t +:+ post.

(** ** Stored documents *)

Inductive bson : Type :=
  | BNull
  | BStr (s : string)
  | BDate (ms : Z)
  | BOid (hex : string).

#[global] Instance bson_eq_dec : EqDecision bson.
Proof. solve_decision. Defined.

(** The [User] model: every path of its schema is [required], so a stored
    user has all of them. *)
Record User : Type := mkUser {
  user_id : string;
  user_username : string;
  user_email : string;
  user_password : string;
  user_createdAt : Z
}.

(** The result of [.select('-password')]. *)
Record UserView : Type := mkUserView {
  view_id : string;
  view_username : string;
  view_email : string;
  view_createdAt : Z
}.

Definition select_no_password (u : User) : UserView :=
  {| view_id := user_id u; view_username := user_username u;
     view_email := user_email u; view_createdAt := user_createdAt u |}.

(** The paths the [Message] schema declares (lines 24-29): three [String]
    paths, and [timestamp] with its default [Date.now]. *)
Definition Message_string_paths : list string := ["sessionId"; "text"; "sender"].

(** Mongoose's cast of a scalar to a [String] path: an undefined value leaves
    the path unset, [null] is kept, anything else is converted to a string. *)
Definition cast_string_path (v : jsval) : option bson :=
  match v with
  | JUndefined => None
  | JNull => Some BNull
  | _ => Some (BStr (to_string v))
  end.

(** [new Model(obj)] under the default [strict] option of a schema: a key
    of [obj] that is not a path of the schema is dropped, the others are
    cast. *)
Definition new_document (paths : list string) (obj : gmap string jsval)
  : gmap string bson :=
  foldr (fun p d => match obj !! p ≫= cast_string_path with
                    | Some b => <[p := b]> d
                    | None => d
                    end) ∅ paths.

(** ** The world *)

Record World : Type := mkWorld {
  users : list User;            (* the users collection, in insertion order *)
  messages : list (gmap string bson);  (* the messages collection *)
  clock : Z;                    (* Date.now(), milliseconds *)
  oid_ctr : nat;                (* ObjectIds generated so far *)
  uuid_ctr : nat;               (* uuidv4() calls so far *)
  faults : list bool;           (* outcome of the coming store operations:
                                   [true] makes the operation throw *)
  env_JWT_SECRET : option string (* process.env.JWT_SECRET *)
}.

Definition set_users (us : list User) (w : World) : World :=
  mkWorld us (messages w) (clock w) (oid_ctr w) (uuid_ctr w) (faults w)
          (env_JWT_SECRET w).
Definition set_messages (ms : list (gmap string bson)) (w : World) : World :=
  mkWorld (users w) ms (clock w) (oid_ctr w) (uuid_ctr w) (faults w)
          (env_JWT_SECRET w).
Definition set_oid_ctr (n : nat) (w : World) : World :=
  mkWorld (users w) (messages w) (clock w) n (uuid_ctr w) (faults w)
          (env_JWT_SECRET w).
Definition set_uuid_ctr (n : nat) (w : World) : World :=
  mkWorld (users w) (messages w) (clock w) (oid_ctr w) n (faults w)
          (env_JWT_SECRET w).
Definition set_faults (fs : list bool) (w : World) : World :=
  mkWorld (users w) (messages w) (clock w) (oid_ctr w) (uuid_ctr w) fs
          (env_JWT_SECRET w).

(** [process.env.JWT_SECRET || 'your-secret-key']: an unset or empty
    variable gives the fallback. *)
Definition jwt_secret (w : World) : string :=
  match env_JWT_SECRET w with
  | Some s => if String.eqb s "" then "your-secret-key" else s
  | None => "your-secret-key"
  end.

(** ** A state and exception monad for the bodies of the handlers *)

Inductive exn : Type :=
  | StoreError        (* the driver or the connection failed *)
  | CastError         (* a filter value cannot be cast to the type of its path *)
  | ValidationError   (* a [required] validator rejected the document *)
  | DuplicateKey.     (* a [unique] index rejected the document *)

Inductive outcome (A : Type) : Type :=
  | Ok (a : A)
  | Throw (e : exn).
Arguments Ok {A} a.
Arguments Throw {A} e.

Definition M (A : Type) : Type := World -> outcome A * World.

Definition ret {A} (a : A) : M A := fun w => (Ok a, w).
Definition throw {A} (e : exn) : M A := fun w => (Throw e, w).
Definition bind {A B} (m : M A) (k : A -> M B) : M B :=
  fun w => match m w with
           | (Ok a, w') => k a w'
           | (Throw e, w') => (Throw e, w')
           end.
Definition get_world : M World := fun w => (Ok w, w).
Definition modify (f : World -> World) : M unit := fun w => (Ok tt, f w).

Notation "'let*' x ':=' m 'in' k" := (bind m (fun x => k))
  (at level 10, x name, m at level 100, k at level 200).
Notation "'exec' m 'then' k" := (bind m (fun _ => k))
  (at level 10, m at level 100, k at level 200).

(** ** The libraries the application calls *)

(** The payload [{ userId, username }] handed to [jwt.sign]. *)
Record Claims : Type := mkClaims {
  claim_userId : string;
  claim_username : string
}.

(** What [jwt.verify] returns: the payload with [iat] and [exp], seconds. *)
Record Verified : Type := mkVerified {
  ver_userId : string;
  ver_username : string;
  ver_iat : Z;
  ver_exp : Z
}.

(** The errors [jwt.verify] throws. *)
Inductive jwt_error : Type :=
  | JwtMalformed
  | JwtInvalidSignature
  | JwtExpired.

Class Platform : Type := {
  (** [jwt.sign(payload, secret, { expiresIn })] at a time in seconds *)
  jwt_sign : Claims -> string -> Z -> Z -> string;
  (** [jwt.verify(token, secret)] at a time in seconds *)
  jwt_verify : string -> string -> Z -> jwt_error + Verified;
  (** the result of the n-th call of [uuidv4()] *)
  uuidv4 : nat -> string;
  (** the n-th ObjectId, as its hexadecimal string *)
  new_ObjectId : nat -> string;
  (** whether a string can be cast to an ObjectId *)
  objectid_valid : string -> bool;
  (** whether a filter value that is not a string selects a stored string
      (Mongoose's query casting) *)
  query_nonstring : jsval -> string -> bool
}.

(** A token verifies, under the secret it was signed with, until it expires. *)
Definition jwt_roundtrip `{Platform} : Prop :=
  forall (c : Claims) (secret : string) (ttl iat now : Z),
    jwt_verify (jwt_sign c secret ttl iat) secret now =
    if now <? iat + ttl
    then inr (mkVerified (claim_userId c) (claim_username c) iat (iat + ttl))
    else inl JwtExpired.

(** Version 4 UUIDs are never empty and, idealised, never repeat. *)
Definition uuid_fresh `{Platform} : Prop :=
  (forall i j : nat, uuidv4 i = uuidv4 j -> i = j) /\
  (forall i : nat, uuidv4 i <> "").

Section App.
Context `{Platform}.

(** ** Store operations *)

(** Every operation that reaches the database takes the next entry of the
    fault schedule. *)
Definition store_op : M unit :=
  fun w => (if hd false (faults w) then Throw StoreError else Ok tt,
            set_faults (tl (faults w)) w).

(** A filter [{ path: v }] on a [String] path. *)
Definition query_eq (v : jsval) (stored : string) : bool :=
  match v with
  | JStr s => String.eqb s stored
  | _ => query_nonstring v stored
  end.

(** [User.findOne(filter)]: one matching user, taken here to be the first
    in insertion order.  The properties below that speak of the user found
    hold for whichever matching user the store returns. *)
Definition User_findOne (filter : User -> bool) : M (option User) :=
  exec store_op then
  let* w := get_world in
  ret (List.find filter (users w)).

(** [User.findById(id).select('-password')]: the id is cast to an ObjectId
    before the query is sent. *)
Definition User_findById (id : string) : M (option UserView) :=
  if objectid_valid id
  then
    exec store_op then
    let* w := get_world in
    ret (select_no_password <$>
         List.find (fun u => String.eqb (user_id u) id) (users w))
  else throw CastError.

(** The cast of a value to a [required] [String] path. *)
Definition cast_required (v : jsval) : option string :=
  match v with
  | JUndefined | JNull => None
  | _ => Some (to_string v)
  end.

Record UserDraft : Type := mkDraft {
  draft_id : string;
  draft_username : option string;
  draft_email : option string;
  draft_password : option string;
  draft_createdAt : Z
}.

(** [new User({ username, email, password })] *)
Definition new_User (username email password : jsval) : M UserDraft :=
  let* w := get_world in
  exec modify (set_oid_ctr (S (oid_ctr w))) then
  ret (mkDraft (new_ObjectId (oid_ctr w)) (cast_required username)
               (cast_required email) (cast_required password) (clock w)).

Definition required_ok (o : option string) : option string :=
  match o with
  | Some s => if String.eqb s "" then None else Some s
  | None => None
  end.

(** [newUser.save()]: the [required] validators, then the insertion, which
    the [unique] indexes on [username] and [email] can reject. *)
Definition User_save (d : UserDraft) : M User :=
  match required_ok (draft_username d), required_ok (draft_email d),
        required_ok (draft_password d) with
  | Some u, Some e, Some p =>
      exec store_op then
      let* w := get_world in
      if existsb (fun x => String.eqb (user_username x) u
                           || String.eqb (user_email x) e) (users w)
      then throw DuplicateKey
      else
        let doc := mkUser (draft_id d) u e p (draft_createdAt d) in
        exec modify (set_users (users w ++ [doc])) then
        ret doc
  | _, _, _ => throw ValidationError
  end.

(** The document [new Message(obj)] builds: the declared paths of [obj],
    the default of [timestamp] and a fresh [_id] (the version key that
    Mongoose adds on insertion is left out). *)
Definition Message_doc (obj : gmap string jsval) (w : World)
  : gmap string bson :=
  <["_id" := BOid (new_ObjectId (oid_ctr w))]>
  (<["timestamp" := BDate (clock w)]>
   (new_document Message_string_paths obj)).

(** [Message.create(obj)]: the document is built, then inserted. *)
Definition Message_create (obj : gmap string jsval) : M (gmap string bson) :=
  let* w := get_world in
  let doc := Message_doc obj w in
  exec modify (set_oid_ctr (S (oid_ctr w))) then
  exec store_op then
  let* w' := get_world in
  exec modify (set_messages (messages w' ++ [doc])) then
  ret doc.

(** [uuidv4()] *)
Definition gen_uuid : M string :=
  fun w => (Ok (uuidv4 (uuid_ctr w)), set_uuid_ctr (S (uuid_ctr w)) w).

(** ** Requests and responses *)

Record Request : Type := mkRequest {
  req_authorization : option string;   (* req.header('Authorization') *)
  req_body : gmap string jsval         (* req.body *)
}.

(** A field of the body; a missing key reads as [undefined]. *)
Definition body_get (req : Request) (k : string) : jsval :=
  default JUndefined (req_body req !! k).

Inductive Body : Type :=
  | ErrorBody (error : string)
      (* { error } *)
  | AuthBody (token : string) (id username email : string)
      (* { success: true, token, user: { id, username, email } } *)
  | ProfileBody (user : option UserView)
      (* res.json(user): the document, or null *)
  | ChatBody (response : string) (sessionId : jsval)
      (* { response, sessionId } *)
  | VoiceBody (text : string).
      (* { text } *)

Record Response : Type := mkResponse {
  status : nat;
  body : Body
}.

(** The [try { ... } catch] of a handler: whatever is thrown becomes the
    500 response of that handler; what was written before stays. *)
Definition catching (msg : string) (m : M Response) (w : World)
  : Response * World :=
  match m w with
  | (Ok r, w') => (r, w')
  | (Throw _, w') => (mkResponse 500 (ErrorBody msg), w')
  end.

(** ** Auth middleware (lines 39-50) *)

Definition access_denied : Response :=
  mkResponse 401 (ErrorBody "Access denied").
Definition invalid_token : Response :=
  mkResponse 400 (ErrorBody "Invalid token").

Inductive gate : Type :=
  | Rejected (r : Response)
  | Next (user : Verified).     (* req.user = verified; next() *)

Definition bearer_token (authorization : option string) : option string :=
  replace_first "Bearer " <$> authorization.

Definition authenticate (req : Request) (w : World) : gate :=
  match bearer_token (req_authorization req) with
  | None => Rejected access_denied
  | Some token =>
      if String.eqb token ""
      then Rejected access_denied
      else match jwt_verify token (jwt_secret w) (clock w / 1000) with
           | inr verified => Next verified
           | inl _ => Rejected invalid_token
           end
  end.

(** A route declared as [app.METHOD(path, authenticate, handler)]. *)
Definition protected (handler : Verified -> Request -> World -> Response * World)
    (req : Request) (w : World) : Response * World :=
  match authenticate req w with
  | Rejected r => (r, w)
  | Next user => handler user req w
  end.

(** ** POST /api/auth/register (lines 53-97) *)

Definition issue_token (id username : string) : M string :=
  let* w := get_world in
  ret (jwt_sign (mkClaims id username) (jwt_secret w) 3600 (clock w / 1000)).

Definition register (req : Request) : World -> Response * World :=
  catching "Registration failed" (
    let username := body_get req "username" in
    let email := body_get req "email" in
    let password := body_get req "password" in
    if negb (truthy username) || negb (truthy email) || negb (truthy password)
    then ret (mkResponse 400 (ErrorBody "All fields are required"))
    else
      let* existingUser :=
        User_findOne (fun u => query_eq username (user_username u)
                               || query_eq email (user_email u)) in
      match existingUser with
      | Some u =>
          ret (mkResponse 409 (ErrorBody
                 (if strict_eq (JStr (user_username u)) username
                  then "Username already exists"
                  else "Email already registered")))
      | None =>
          let* draft := new_User username email password in
          let* newUser := User_save draft in
          let* token := issue_token (user_id newUser) (user_username newUser) in
          ret (mkResponse 201 (AuthBody token (user_id newUser)
                                 (user_username newUser) (user_email newUser)))
      end).

(** ** POST /api/auth/login (lines 100-128) *)

Definition login (req : Request) : World -> Response * World :=
  catching "Login failed" (
    let email := body_get req "email" in
    let password := body_get req "password" in
    let* user := User_findOne (fun u => query_eq email (user_email u)) in
    match user with
    | None => ret (mkResponse 401 (ErrorBody "Invalid credentials"))
    | Some u =>
        if negb (strict_eq (JStr (user_password u)) password)
        then ret (mkResponse 401 (ErrorBody "Invalid credentials"))
        else
          let* token := issue_token (user_id u) (user_username u) in
          ret (mkResponse 200 (AuthBody token (user_id u) (user_username u)
                                 (user_email u)))
    end).

(** ** GET /api/auth/me (lines 131-138) *)

Definition me_handler (user : Verified) (req : Request)
  : World -> Response * World :=
  catching "Server error" (
    let* found := User_findById (ver_userId user) in
    ret (mkResponse 200 (ProfileBody found))).

Definition me : Request -> World -> Response * World := protected me_handler.

(** ** POST /api/process-voice (lines 141-149) *)

Definition process_voice (req : Request) : World -> Response * World :=
  catching "Voice processing failed" (
    let mockTranscript := "This is a mock voice transcript" in
    ret (mkResponse 200 (VoiceBody mockTranscript))).

(** ** POST /api/chat (lines 152-181) *)

Definition dquote : string := String "034"%char EmptyString.

(** The template literal of line 166. *)
Definition aiResponse (message : jsval) : string :=
  "I received: " +:+ dquote +:+ to_string message +:+ dquote
  +:+ ". This is a mock response.".

(** The object literals of lines 158-163 and 169-174. *)
Definition message_obj (sessionId text : jsval) (sender : string)
    (userId : string) : gmap string jsval :=
  <["sessionId" := sessionId]> (<["text" := text]>
  (<["sender" := JStr sender]> (<["userId" := JStr userId]> ∅))).

Definition chat_handler (user : Verified) (req : Request)
  : World -> Response * World :=
  catching "Chat processing failed" (
    let message := body_get req "message" in
    let* sessionId :=
      match body_get req "sessionId" with
      | JUndefined => let* u := gen_uuid in ret (JStr u)
      | given => ret given
      end in
    let userId := ver_userId user in
    exec Message_create (message_obj sessionId message "user" userId) then
    let response := aiResponse message in
    exec Message_create (message_obj sessionId (JStr response) "bot" userId) then
    ret (mkResponse 200 (ChatBody response sessionId))).

Definition chat : Request -> World -> Response * World := protected chat_handler.

Definition chat_failed : Response :=
  mkResponse 500 (ErrorBody "Chat processing failed").

(** The session identifier of a chat call made in world [w]. *)
Definition chosen_session (req : Request) (w : World) : jsval :=
  match body_get req "sessionId" with
  | JUndefined => JStr (uuidv4 (uuid_ctr w))
  | given => given
  end.

(** The two documents a chat call hands to the message log. *)
Definition user_turn (user : Verified) (req : Request) (w : World)
  : gmap string bson :=
  Message_doc (message_obj (chosen_session req w) (body_get req "message")
                           "user" (ver_userId user)) w.

Definition bot_turn (user : Verified) (req : Request) (w : World)
  : gmap string bson :=
  Message_doc (message_obj (chosen_session req w)
                           (JStr (aiResponse (body_get req "message")))
                           "bot" (ver_userId user))
              (set_oid_ctr (S (oid_ctr w)) w).

(** ** The server over time *)

Inductive event : Type :=
  | Register (req : Request)
  | Login (req : Request)
  | Me (req : Request)
  | ProcessVoice (req : Request)
  | Chat (req : Request)
  | Tick (ms : Z)                 (* time passes *)
  | Schedule (fs : list bool).    (* the store becomes faulty or recovers *)

Definition step (e : event) (w : World) : World :=
  match e with
  | Register req => snd (register req w)
  | Login req => snd (login req w)
  | Me req => snd (me req w)
  | ProcessVoice req => snd (process_voice req w)
  | Chat req => snd (chat req w)
  | Tick ms =>
      mkWorld (users w) (messages w) (clock w + Z.max 0 ms) (oid_ctr w)
              (uuid_ctr w) (faults w) (env_JWT_SECRET w)
  | Schedule fs => set_faults fs w
  end.

Definition run (es : list event) (w : World) : World :=
  fold_left (fun w e => step e w) es w.

End App.

(** ** A reference platform, to run the routes on concrete requests

    Tokens are a length-prefixed rendering of the secret, the two times and
    the claims; identifiers are numbered.  It is one platform that meets
    [jwt_roundtrip] and [uuid_fresh]. *)

Module Sim.

Fixpoint ones (n : nat) : string :=
  match n with
  | O => EmptyString
  | S n' => String "1"%char (ones n')
  end.

Fixpoint count_ones (s : string) : nat * string :=
  match s with
  | String c s' =>
      if Ascii.eqb c "1"%char
      then let (n, r) := count_ones s' in (S n, r)
      else (O, s)
  | EmptyString => (O, s)
  end.

Definition put_nat (n : nat) : string := ones n +:+ ".".

Definition get_nat (s : string) : option (nat * string) :=
  match count_ones s with
  | (n, String c r) => if Ascii.eqb c "."%char then Some (n, r) else None
  | _ => None
  end.

Fixpoint take_chars (n : nat) (s : string) : option (string * string) :=
  match n, s with
  | O, _ => Some (EmptyString, s)
  | S n', String c s' =>
      match take_chars n' s' with
      | Some (a, r) => Some (String c a, r)
      | None => None
      end
  | S _, EmptyString => None
  end.

Definition put_str (s : string) : string := put_nat (String.length s) +:+ s.

Definition get_str (s : string) : option (string * string) :=
  match get_nat s with
  | Some (n, r) => take_chars n r
  | None => None
  end.

Definition put_Z (z : Z) : string :=
  (if z <? 0 then "-" else "+") +:+ put_nat (Z.abs_nat z).

Definition get_Z (s : string) : option (Z * string) :=
  match s with
  | String c r =>
      match get_nat r with
      | Some (n, r') =>
          if Ascii.eqb c "-"%char then Some (- Z.of_nat n, r')
          else if Ascii.eqb c "+"%char then Some (Z.of_nat n, r')
          else None
      | None => None
      end
  | EmptyString => None
  end.

Definition sign (c : Claims) (secret : string) (ttl iat : Z) : string :=
  put_str secret +:+ put_Z iat +:+ put_Z ttl
  +:+ put_str (claim_userId c) +:+ put_str (claim_username c).

Definition parse (token : string) : option (string * Z * Z * string * string) :=
  match get_str token with
  | Some (secret, r1) =>
    match get_Z r1 with
    | Some (iat, r2) =>
      match get_Z r2 with
      | Some (ttl, r3) =>
        match get_str r3 with
        | Some (uid, r4) =>
          match get_str r4 with
          | Some (uname, EmptyString) => Some (secret, iat, ttl, uid, uname)
          | _ => None
          end
        | None => None
        end
      | None => None
      end
    | None => None
    end
  | None => None
  end.

Definition verify (token secret : string) (now : Z) : jwt_error + Verified :=
  match parse token with
  | Some (secret', iat, ttl, uid, uname) =>
      if negb (String.eqb secret' secret) then inl JwtInvalidSignature
      else if now <? iat + ttl
           then inr (mkVerified uid uname iat (iat + ttl))
           else inl JwtExpired
  | None => inl JwtMalformed
  end.

#[global] Instance platform : Platform := {|
  jwt_sign := sign;
  jwt_verify := verify;
  uuidv4 := fun n => "uuid-" +:+ ones n;
  new_ObjectId := fun n => "oid-" +:+ ones n;
  objectid_valid := String.prefix "oid-";
  query_nonstring := fun _ _ => false
|}.

(** A world with no users, no messages and nothing scheduled to fail. *)
Definition empty_world (now : Z) : World :=
  mkWorld [] [] now 0 0 [] None.

Definition json_body (fields : list (string * jsval)) : gmap string jsval :=
  list_to_map fields.

(** A caller, a token issued to them at second 5, and requests made with
    it. *)
Definition alice : Claims := mkClaims "oid-" "alice".

Definition alice_token : string := sign alice "your-secret-key" 3600 5.

Definition bearer (token : string) : option string :=
  Some ("Bearer " +:+ token).

Definition chat_request (fields : list (string * jsval)) : Request :=
  mkRequest (bearer alice_token) (json_body fields).

Definition chat_hello : Request := chat_request [("message", JStr "hello")].

(** A second caller, and a platform that differs in its identifiers. *)
Definition bob : Claims := mkClaims "oid-1" "bob".

Definition bob_hello : Request :=
  mkRequest (bearer (sign bob "s3cret" 3600 100))
            (json_body [("message", JStr "hello"); ("sessionId", JStr "room")]).

Definition bob_world : World :=
  mkWorld [mkUser "oid-1" "bob" "b@x.com" "pw2" 90000] [] 200000 1 4 []
          (Some "s3cret").

(** Registrations and logins against [bob_world]. *)
Definition form (fields : list (string * jsval)) : Request :=
  mkRequest None (json_body fields).

Definition register_bob_again : Request :=
  form [("username", JStr "bob"); ("email", JStr "new@x.com");
        ("password", JStr "pw9")].

Definition register_no_password : Request :=
  form [("username", JStr "carol"); ("email", JStr "c@x.com")].

Definition login_bob : Request :=
  form [("email", JStr "b@x.com"); ("password", JStr "pw2")].

Definition other_platform : Platform := {|
  jwt_sign := sign;
  jwt_verify := verify;
  uuidv4 := fun n => "id" +:+ ones (2 * n);
  new_ObjectId := fun n => "o" +:+ ones n;
  objectid_valid := String.prefix "o";
  query_nonstring := fun _ _ => true
|}.


(** A registration of a new user, and her login. *)
Definition register_carol : Request :=
  form [("username", JStr "carol"); ("email", JStr "c@x.com");
        ("password", JStr "pw3")].

Definition login_carol : Request :=
  form [("email", JStr "c@x.com"); ("password", JStr "pw3")].

(** A run of the server: two registrations, the second a duplicate, chats
    with and without a working store, a login and a profile read. *)
Definition busy_day : list event :=
  [Register register_carol; Register register_bob_again;
   Chat bob_hello; Schedule [false; true]; Chat bob_hello;
   Tick 1000; Login login_carol;
   Me (mkRequest (bearer (sign bob "s3cret" 3600 100)) ∅);
   ProcessVoice (form [])].

End Sim.

(** ** Predicates on the two collections *)

(** The filter of the lookup of line 63: [$or: [{ username }, { email }]]. *)
Definition register_filter `{Platform} (req : Request) (u : User) : bool :=
  query_eq (body_get req "username") (user_username u)
  || query_eq (body_get req "email") (user_email u).

(** What the [unique] indexes of the [User] schema stand for. *)
Definition unique_users (us : list User) : Prop :=
  NoDup (map user_username us) /\ NoDup (map user_email us).

(** What the [required] validators of the [User] schema stand for. *)
Definition fields_present (us : list User) : Prop :=
  Forall (fun u => user_username u <> "" /\ user_email u <> ""
                   /\ user_password u <> "") us.


(** * Properties *)

(** ** Strings *)

Lemma string_app_cons (c : ascii) (a b : string) :
  String c a +:+ b = String c (a +:+ b).
Proof. reflexivity. Qed.

Lemma string_app_nil (b : string) : "" +:+ b = b.
Proof. reflexivity. Qed.

Lemma string_app_assoc (a b c : string) : (a +:+ b) +:+ c = a +:+ (b +:+ c).
Proof.
  induction a as [|x a IH]; [reflexivity|].
  rewrite !string_app_cons. f_equal. exact IH.
Qed.

Lemma string_app_empty_r (a : string) : a +:+ "" = a.
Proof.
  induction a as [|x a IH]; [reflexivity|].
  rewrite string_app_cons. f_equal. exact IH.
Qed.

Lemma prefix_app (p t : string) : String.prefix p (p +:+ t) = true.
Proof.
  induction p as [|c p IH]; [now destruct t|].
  rewrite string_app_cons. cbn [String.prefix].
  destruct (ascii_dec c c) as [_|Hne]; [exact IH | now destruct Hne].
Qed.

Lemma string_drop_app (p t : string) :
  string_drop (String.length p) (p +:+ t) = t.
Proof.
  induction p as [|c p IH]; [reflexivity|].
  rewrite string_app_cons. exact IH.
Qed.

(** The pattern at the front is the occurrence that goes. *)
Lemma replace_first_prefix (p t : string) : replace_first p (p +:+ t) = t.
Proof.
  destruct p as [|c p]; [now destruct t|].
  rewrite string_app_cons. cbn [replace_first].
  rewrite <- string_app_cons, prefix_app. apply string_drop_app.
Qed.

(** Without an occurrence nothing changes. *)
Lemma replace_first_absent (p s : string) :
  occurs p s = false -> replace_first p s = s.
Proof.
  induction s as [|c s IH]; intros Hocc.
  - cbn [occurs] in Hocc. rewrite orb_false_r in Hocc.
    cbn [replace_first]. now rewrite Hocc.
  - cbn [occurs] in Hocc. apply orb_false_iff in Hocc as [Hp Hs].
    cbn [replace_first]. rewrite Hp. now rewrite IH.
Qed.

(** Only the first occurrence goes: when no occurrence starts inside [a],
    [a ++ pat ++ b] loses exactly that [pat], whatever [b] holds. *)
Lemma replace_first_split (p a b : string) :
  (forall a1 a2 : string, a = a1 +:+ a2 -> a2 <> "" ->
     String.prefix p (a2 +:+ p +:+ b) = false) ->
  replace_first p (a +:+ p +:+ b) = a +:+ b.
Proof.
  induction a as [|c a IH]; intros Hfirst.
  - exact (replace_first_prefix p b).
  - rewrite !string_app_cons. cbn [replace_first].
    rewrite <- string_app_cons.
    rewrite (Hfirst "" (String c a)) by (reflexivity || discriminate).
    f_equal. apply IH.
    intros a1 a2 -> Hne. apply (Hfirst (String c a1) a2); [reflexivity|exact Hne].
Qed.

(** ** Documents and the message log *)

Section Log.
Context `{Platform}.

(** A document holds the paths of its schema and nothing else. *)
Lemma new_document_lookup (paths : list string) (obj : gmap string jsval)
    (p : string) :
  new_document paths obj !! p =
  if bool_decide (p ∈ paths) then obj !! p ≫= cast_string_path else None.
Proof.
  induction paths as [|q paths IH]; cbn [new_document foldr].
  - rewrite lookup_empty. now rewrite bool_decide_eq_false_2 by apply not_elem_of_nil.
  - fold (new_document paths obj).
    destruct (decide (p = q)) as [->|Hne].
    + rewrite bool_decide_eq_true_2 by apply list_elem_of_here.
      destruct (obj !! q ≫= cast_string_path) as [b|] eqn:Hq.
      * now rewrite lookup_insert_eq.
      * rewrite IH. now case_bool_decide.
    + assert (bool_decide (p ∈ q :: paths) = bool_decide (p ∈ paths)) as ->.
      { apply bool_decide_ext. rewrite elem_of_cons. tauto. }
      destruct (obj !! q ≫= cast_string_path) as [b|].
      * now rewrite lookup_insert_ne.
      * exact IH.
Qed.

Lemma Message_doc_lookup (obj : gmap string jsval) (w : World) (p : string) :
  p <> "_id" -> p <> "timestamp" ->
  Message_doc obj w !! p =
  if bool_decide (p ∈ Message_string_paths)
  then obj !! p ≫= cast_string_path else None.
Proof.
  intros H1 H2. unfold Message_doc.
  rewrite !lookup_insert_ne by congruence. apply new_document_lookup.
Qed.

(** What is stored of the object literal of a chat turn. *)
Lemma Message_doc_fields (sid text : jsval) (sender uid : string) (w : World) :
  let d := Message_doc (message_obj sid text sender uid) w in
  d !! "sessionId" = cast_string_path sid /\
  d !! "text" = cast_string_path text /\
  d !! "sender" = Some (BStr sender) /\
  d !! "userId" = None /\
  d !! "timestamp" = Some (BDate (clock w)).
Proof.
  cbv zeta. split; [|split; [|split; [|split]]];
    try (rewrite Message_doc_lookup by discriminate); unfold message_obj.
  - rewrite bool_decide_eq_true_2 by set_solver.
    now rewrite lookup_insert_eq.
  - rewrite bool_decide_eq_true_2 by set_solver.
    rewrite lookup_insert_ne by discriminate. now rewrite lookup_insert_eq.
  - rewrite bool_decide_eq_true_2 by set_solver.
    rewrite !(lookup_insert_ne _ _ "sender") by discriminate.
    now rewrite lookup_insert_eq.
  - rewrite bool_decide_eq_false_2; [reflexivity|].
    unfold Message_string_paths. rewrite !elem_of_cons, elem_of_nil.
    intros [?|[?|[?|[]]]]; discriminate.
  - unfold Message_doc. rewrite lookup_insert_ne by discriminate.
    now rewrite lookup_insert_eq.
Qed.

End Log.

(** ** The chat handler, case by case *)

Section ChatHandler.
Context `{Platform}.

Ltac chat_steps :=
  unfold catching, bind, Message_create, gen_uuid, ret, get_world, modify,
    store_op, Message_doc; cbn -[insert new_document aiResponse].

(** The session identifier is chosen before anything is written; only an
    undefined [sessionId] draws a UUID. *)
Lemma chat_handler_uuid_ctr (user : Verified) (req : Request) (w : World) :
  uuid_ctr (snd (chat_handler user req w)) =
  if bool_decide (body_get req "sessionId" = JUndefined)
  then S (uuid_ctr w) else uuid_ctr w.
Proof.
  unfold chat_handler.
  destruct (body_get req "sessionId") eqn:Hsid; chat_steps;
    destruct (hd false (faults w)); cbn; try reflexivity;
    destruct (hd false (tl (faults w))); reflexivity.
Qed.

Lemma chat_handler_first_fails (user : Verified) (req : Request) (w : World) :
  hd false (faults w) = true ->
  exists w', chat_handler user req w = (chat_failed, w') /\
             messages w' = messages w /\ users w' = users w.
Proof.
  intros Hf. unfold chat_handler.
  destruct (body_get req "sessionId"); chat_steps; rewrite Hf; cbn;
    eexists; (split; [reflexivity | split; reflexivity]).
Qed.

Lemma chat_handler_second_fails (user : Verified) (req : Request) (w : World) :
  hd false (faults w) = false ->
  hd false (tl (faults w)) = true ->
  exists w', chat_handler user req w = (chat_failed, w') /\
             messages w' = messages w ++ [user_turn user req w] /\
             users w' = users w.
Proof.
  intros Hf1 Hf2. unfold chat_handler, user_turn, chosen_session.
  destruct (body_get req "sessionId"); chat_steps;
    rewrite Hf1; cbn; rewrite Hf2; cbn;
    eexists; (split; [reflexivity | split; reflexivity]).
Qed.

Lemma chat_handler_succeeds (user : Verified) (req : Request) (w : World) :
  hd false (faults w) = false ->
  hd false (tl (faults w)) = false ->
  exists w',
    chat_handler user req w =
      (mkResponse 200 (ChatBody (aiResponse (body_get req "message"))
                                (chosen_session req w)), w') /\
    messages w' = messages w ++ [user_turn user req w; bot_turn user req w] /\
    users w' = users w.
Proof.
  intros Hf1 Hf2. unfold chat_handler, user_turn, bot_turn, chosen_session.
  destruct (body_get req "sessionId"); chat_steps;
    rewrite Hf1; cbn; rewrite Hf2; cbn; rewrite <- app_assoc;
    eexists; (split; [reflexivity | split; reflexivity]).
Qed.

(** A chat handler answers 200 exactly when neither append fails. *)
Lemma chat_handler_status (user : Verified) (req : Request) (w : World) :
  status (fst (chat_handler user req w)) =
  if hd false (faults w) || hd false (tl (faults w)) then 500%nat else 200%nat.
Proof.
  destruct (hd false (faults w)) eqn:Hf1.
  - destruct (chat_handler_first_fails user req w Hf1) as (w' & -> & _).
    reflexivity.
  - destruct (hd false (tl (faults w))) eqn:Hf2.
    + destruct (chat_handler_second_fails user req w Hf1 Hf2) as (w' & -> & _).
      reflexivity.
    + destruct (chat_handler_succeeds user req w Hf1 Hf2) as (w' & -> & _).
      reflexivity.
Qed.

End ChatHandler.

(** ** The identifier counters only grow *)

Ltac route_steps :=
  unfold catching, bind, User_findOne, User_findById, new_User, User_save,
    issue_token, ret, throw, get_world, modify, store_op;
  cbn -[jwt_sign jwt_secret Z.div].

Section Counters.
Context `{Platform}.

Lemma register_uuid_ctr (req : Request) (w : World) :
  uuid_ctr (snd (register req w)) = uuid_ctr w.
Proof.
  unfold register. route_steps.
  repeat (case_match; simplify_eq; cbn -[jwt_sign jwt_secret Z.div] in * );
    try reflexivity.
Qed.

Lemma login_uuid_ctr (req : Request) (w : World) :
  uuid_ctr (snd (login req w)) = uuid_ctr w.
Proof.
  unfold login. route_steps.
  repeat (case_match; simplify_eq; cbn -[jwt_sign jwt_secret Z.div] in * );
    try reflexivity.
Qed.

Lemma me_uuid_ctr (req : Request) (w : World) :
  uuid_ctr (snd (me req w)) = uuid_ctr w.
Proof.
  unfold me, protected, me_handler. destruct (authenticate req w); [reflexivity|].
  route_steps. destruct (objectid_valid (ver_userId user)); [|reflexivity].
  cbn. now destruct (hd false (faults w)).
Qed.

Lemma chat_uuid_ctr (req : Request) (w : World) :
  (uuid_ctr w <= uuid_ctr (snd (chat req w)))%nat.
Proof.
  unfold chat, protected. destruct (authenticate req w); [reflexivity|].
  rewrite chat_handler_uuid_ctr. case_bool_decide; lia.
Qed.

Lemma step_uuid_ctr (e : event) (w : World) :
  (uuid_ctr w <= uuid_ctr (step e w))%nat.
Proof.
  destruct e; cbn [step].
  - now rewrite register_uuid_ctr.
  - now rewrite login_uuid_ctr.
  - now rewrite me_uuid_ctr.
  - reflexivity.
  - apply chat_uuid_ctr.
  - reflexivity.
  - reflexivity.
Qed.

Lemma run_uuid_ctr (es : list event) (w : World) :
  (uuid_ctr w <= uuid_ctr (run es w))%nat.
Proof.
  revert w. induction es as [|e es IH]; intros w; [reflexivity|].
  cbn [run fold_left]. fold (run es (step e w)).
  etransitivity; [apply step_uuid_ctr | apply IH].
Qed.

End Counters.

(** ** The chat route *)

Section ChatRoute.
Context `{Platform}.

Lemma authenticate_rejected (req : Request) (w : World) (r : Response) :
  authenticate req w = Rejected r ->
  r = mkResponse 401 (ErrorBody "Access denied") \/
  r = mkResponse 400 (ErrorBody "Invalid token").
Proof.
  unfold authenticate. intros Hr.
  repeat case_match; simplify_eq; auto.
Qed.

(** A chat call that answers 200, or answers with a chat body at all, passed
    the gate and had both appends succeed. *)
Lemma chat_inv (req : Request) (w : World) (r : Response) (w' : World) :
  chat req w = (r, w') ->
  status r = 200%nat \/ (exists a b, body r = ChatBody a b) ->
  exists user : Verified,
    authenticate req w = Next user /\
    hd false (faults w) = false /\
    hd false (tl (faults w)) = false /\
    r = mkResponse 200 (ChatBody (aiResponse (body_get req "message"))
                                 (chosen_session req w)) /\
    messages w' = messages w ++ [user_turn user req w; bot_turn user req w] /\
    users w' = users w /\
    uuid_ctr w' = (if bool_decide (body_get req "sessionId" = JUndefined)
                   then S (uuid_ctr w) else uuid_ctr w).
Proof.
  unfold chat, protected. intros Hrun Hok.
  destruct (authenticate req w) as [r0|user] eqn:Hgate.
  { simplify_eq. apply authenticate_rejected in Hgate as [-> | ->];
      destruct Hok as [? | (? & ? & ?)]; discriminate. }
  exists user. split; [reflexivity|].
  pose proof (chat_handler_uuid_ctr user req w) as Hctr.
  rewrite Hrun in Hctr. cbn [snd] in Hctr.
  destruct (hd false (faults w)) eqn:Hf1.
  { destruct (chat_handler_first_fails user req w Hf1) as (w1 & Heq & _).
    rewrite Heq in Hrun. simplify_eq.
    destruct Hok as [? | (? & ? & ?)]; discriminate. }
  destruct (hd false (tl (faults w))) eqn:Hf2.
  { destruct (chat_handler_second_fails user req w Hf1 Hf2) as (w1 & Heq & _).
    rewrite Heq in Hrun. simplify_eq.
    destruct Hok as [? | (? & ? & ?)]; discriminate. }
  destruct (chat_handler_succeeds user req w Hf1 Hf2) as (w1 & Heq & Hm & Hu).
  rewrite Heq in Hrun. simplify_eq. auto 10.
Qed.

End ChatRoute.

(** C2. A chat call that succeeds appends exactly two messages, in order:
    the user turn, whose text is the message of the request, then the bot
    turn, whose text is the computed response; both carry the session
    identifier that the call returns.  When the body has no [sessionId], the
    returned identifier is a non-empty generated one, and no later chat call
    that omits [sessionId] returns the same one. *)
Theorem chat_appends_two_messages `{Platform}
    (req : Request) (w : World) (r : Response) (w' : World) :
  uuid_fresh ->
  chat req w = (r, w') ->
  status r = 200%nat ->
  exists (user : Verified) (d1 d2 : gmap string bson) (sid : jsval),
    authenticate req w = Next user /\
    body r = ChatBody (aiResponse (body_get req "message")) sid /\
    messages w' = messages w ++ [d1; d2] /\
    d1 !! "sender" = Some (BStr "user") /\
    d1 !! "text" = cast_string_path (body_get req "message") /\
    (forall s, body_get req "message" = JStr s -> d1 !! "text" = Some (BStr s)) /\
    d2 !! "sender" = Some (BStr "bot") /\
    d2 !! "text" = Some (BStr (aiResponse (body_get req "message"))) /\
    d1 !! "sessionId" = cast_string_path sid /\
    d2 !! "sessionId" = cast_string_path sid /\
    (body_get req "sessionId" = JUndefined ->
     exists u : string,
       sid = JStr u /\ u <> "" /\
       forall (es : list event) (req2 : Request) (r2 : Response) (w2 : World)
              (response2 : string) (sid2 : jsval),
         chat req2 (run es w') = (r2, w2) ->
         body_get req2 "sessionId" = JUndefined ->
         body r2 = ChatBody response2 sid2 ->
         sid2 <> sid).
Proof.
  intros [Hinj Hne] Hrun Hok.
  destruct (chat_inv req w r w' Hrun (or_introl Hok))
    as (user & Hgate & _ & _ & -> & Hm & _ & Hctr).
  exists user, (user_turn user req w), (bot_turn user req w),
         (chosen_session req w).
  unfold user_turn, bot_turn.
  destruct (Message_doc_fields (chosen_session req w) (body_get req "message")
              "user" (ver_userId user) w) as (Hs1 & Ht1 & Hd1 & _).
  destruct (Message_doc_fields (chosen_session req w)
              (JStr (aiResponse (body_get req "message")))
              "bot" (ver_userId user) (set_oid_ctr (S (oid_ctr w)) w))
    as (Hs2 & Ht2 & Hd2 & _).
  repeat (split; [assumption || reflexivity|]).
  split. { intros s Hs. rewrite Ht1, Hs. reflexivity. }
  repeat (split; [assumption || reflexivity|]).
  intros Hundef. unfold chosen_session. rewrite Hundef.
  exists (uuidv4 (uuid_ctr w)). split; [reflexivity|]. split; [apply Hne|].
  intros es req2 r2 w2 response2 sid2 Hrun2 Hundef2 Hbody2.
  destruct (chat_inv req2 (run es w') r2 w2 Hrun2)
    as (_ & _ & _ & _ & -> & _); [right; eauto|].
  cbn [body] in Hbody2. unfold chosen_session in Hbody2.
  rewrite Hundef2 in Hbody2. injection Hbody2 as _ <-.
  intros Heq. injection Heq as Heq. apply Hinj in Heq.
  pose proof (run_uuid_ctr es w') as Hmono.
  rewrite Hctr, bool_decide_eq_true_2 in Hmono by assumption. lia.
Qed.

(** ** The reference platform meets the assumptions *)

Lemma sim_ones_inj (i j : nat) : Sim.ones i = Sim.ones j -> i = j.
Proof.
  revert j. induction i as [|i IH]; intros [|j] Heq; try discriminate.
  - reflexivity.
  - injection Heq as Heq. f_equal. now apply IH.
Qed.

Lemma sim_get_nat_put (n : nat) (r : string) :
  Sim.get_nat (Sim.put_nat n +:+ r) = Some (n, r).
Proof.
  unfold Sim.get_nat, Sim.put_nat. rewrite string_app_assoc.
  assert (Sim.count_ones (Sim.ones n +:+ "." +:+ r) = (n, "." +:+ r)) as ->.
  { induction n as [|n IH]; [reflexivity|].
    cbn [Sim.ones]. rewrite string_app_cons. cbn [Sim.count_ones].
    rewrite IH. reflexivity. }
  reflexivity.
Qed.

Lemma sim_take_chars_app (s r : string) :
  Sim.take_chars (String.length s) (s +:+ r) = Some (s, r).
Proof.
  induction s as [|c s IH]; [reflexivity|].
  rewrite string_app_cons. cbn [String.length Sim.take_chars].
  now rewrite IH.
Qed.

Lemma sim_get_str_put (s r : string) :
  Sim.get_str (Sim.put_str s +:+ r) = Some (s, r).
Proof.
  unfold Sim.get_str, Sim.put_str.
  rewrite string_app_assoc, sim_get_nat_put. apply sim_take_chars_app.
Qed.

Lemma sim_get_Z_put (z : Z) (r : string) :
  Sim.get_Z (Sim.put_Z z +:+ r) = Some (z, r).
Proof.
  unfold Sim.get_Z, Sim.put_Z. rewrite string_app_assoc.
  destruct (Z.ltb_spec z 0) as [Hneg|Hpos];
    rewrite string_app_cons, string_app_nil, sim_get_nat_put; cbn;
    do 2 f_equal; lia.
Qed.

Lemma sim_parse_sign (c : Claims) (secret : string) (ttl iat : Z) :
  Sim.parse (Sim.sign c secret ttl iat) =
  Some (secret, iat, ttl, claim_userId c, claim_username c).
Proof.
  unfold Sim.parse, Sim.sign.
  rewrite sim_get_str_put, sim_get_Z_put, sim_get_Z_put, sim_get_str_put.
  rewrite <- (string_app_empty_r (Sim.put_str (claim_username c))).
  now rewrite sim_get_str_put.
Qed.

Lemma sim_jwt_roundtrip : @jwt_roundtrip Sim.platform.
Proof.
  intros c secret ttl iat now. cbn [jwt_verify jwt_sign Sim.platform].
  unfold Sim.verify. rewrite sim_parse_sign, String.eqb_refl. reflexivity.
Qed.

Lemma sim_uuid_fresh : @uuid_fresh Sim.platform.
Proof.
  split.
  - intros i j Heq. cbn [uuidv4 Sim.platform] in Heq.
    apply String.app_inj in Heq. now apply sim_ones_inj.
  - intros i. cbn [uuidv4 Sim.platform]. discriminate.
Qed.

Lemma chat_appends_two_messages_witness :
  let req := Sim.chat_hello in
  let w := Sim.empty_world 6000 in
  let r := fst (chat req w) in
  let w' := snd (chat req w) in
  @uuid_fresh Sim.platform /\
  chat req w = (r, w') /\
  status r = 200%nat /\
  exists (user : Verified) (d1 d2 : gmap string bson) (sid : jsval),
    authenticate req w = Next user /\
    body r = ChatBody (aiResponse (body_get req "message")) sid /\
    messages w' = messages w ++ [d1; d2] /\
    d1 !! "sender" = Some (BStr "user") /\
    d1 !! "text" = cast_string_path (body_get req "message") /\
    (forall s, body_get req "message" = JStr s -> d1 !! "text" = Some (BStr s)) /\
    d2 !! "sender" = Some (BStr "bot") /\
    d2 !! "text" = Some (BStr (aiResponse (body_get req "message"))) /\
    d1 !! "sessionId" = cast_string_path sid /\
    d2 !! "sessionId" = cast_string_path sid /\
    body_get req "sessionId" = JUndefined /\
    (exists u : string,
       sid = JStr u /\ u <> "" /\
       forall (es : list event) (req2 : Request) (r2 : Response) (w2 : World)
              (response2 : string) (sid2 : jsval),
         chat req2 (run es w') = (r2, w2) ->
         body_get req2 "sessionId" = JUndefined ->
         body r2 = ChatBody response2 sid2 ->
         sid2 <> sid).
Proof.
  cbv zeta.
  assert (Hrun : chat Sim.chat_hello (Sim.empty_world 6000) =
                 (fst (chat Sim.chat_hello (Sim.empty_world 6000)),
                  snd (chat Sim.chat_hello (Sim.empty_world 6000))))
    by (vm_compute; reflexivity).
  assert (Hok : status (fst (chat Sim.chat_hello (Sim.empty_world 6000)))
                = 200%nat) by (vm_compute; reflexivity).
  split; [exact sim_uuid_fresh|]. split; [exact Hrun|]. split; [exact Hok|].
  destruct (chat_appends_two_messages Sim.chat_hello (Sim.empty_world 6000)
              _ _ sim_uuid_fresh Hrun Hok)
    as (user & d1 & d2 & sid & H1 & H2 & H3 & H4 & H5 & H6 & H7 & H8 & H9
        & H10 & H11).
  exists user, d1, d2, sid. do 10 (split; [assumption|]).
  split; [reflexivity | exact (H11 eq_refl)].
Defined.

(** ** What the message log keeps of a chat turn *)

(** A path that the schema declares is kept by [new_document]: had
    [userId] been declared, it would be stored. *)
Lemma new_document_keeps_declared (paths : list string)
    (obj : gmap string jsval) (p : string) (v : jsval) :
  p ∈ paths -> obj !! p = Some v ->
  new_document paths obj !! p = cast_string_path v.
Proof.
  intros Hin Hp. rewrite new_document_lookup.
  rewrite bool_decide_eq_true_2 by assumption. now rewrite Hp.
Qed.

(** Whoever the caller is, neither message of a successful chat call has a
    [userId]: the handler passes it, the schema of [Message] has no such
    path. *)
Lemma chat_messages_lack_userId `{Platform}
    (req : Request) (w : World) (r : Response) (w' : World) :
  chat req w = (r, w') ->
  status r = 200%nat ->
  exists d1 d2 : gmap string bson,
    messages w' = messages w ++ [d1; d2] /\
    d1 !! "userId" = None /\ d2 !! "userId" = None.
Proof.
  intros Hrun Hok.
  destruct (chat_inv req w r w' Hrun (or_introl Hok))
    as (user & _ & _ & _ & _ & Hm & _).
  exists (user_turn user req w), (bot_turn user req w).
  split; [exact Hm|]. unfold user_turn, bot_turn.
  split; apply Message_doc_fields.
Qed.

(** C1. The chat call of an authenticated caller (identity [oid-]) succeeds
    and stores two messages; neither of them has a [userId] field. *)
Theorem chat_drops_userId :
  let req := Sim.chat_hello in
  let w := Sim.empty_world 6000 in
  (exists v, authenticate req w = Next v /\ ver_userId v = "oid-") /\
  status (fst (chat req w)) = 200%nat /\
  (fun d : gmap string bson => d !! "userId") <$> messages (snd (chat req w))
  = [None; None].
Proof.
  cbv zeta. split; [|split].
  - eexists. split; vm_compute; reflexivity.
  - vm_compute; reflexivity.
  - vm_compute; reflexivity.
Qed.

(** C6. When a store failure occurs during one of the two appends of a chat
    call, the call answers 500 [Chat processing failed].  When it is the
    second append that fails, the user message written by the first one
    stays in the log. *)
Theorem chat_store_failure `{Platform}
    (req : Request) (w : World) (user : Verified) :
  authenticate req w = Next user ->
  hd false (faults w) || hd false (tl (faults w)) = true ->
  exists w' : World,
    chat req w = (mkResponse 500 (ErrorBody "Chat processing failed"), w') /\
    users w' = users w /\
    messages w' = (if hd false (faults w) then messages w
                   else messages w ++ [user_turn user req w]) /\
    user_turn user req w !! "sender" = Some (BStr "user") /\
    user_turn user req w !! "text" = cast_string_path (body_get req "message").
Proof.
  intros Hgate Hfail. unfold chat, protected. rewrite Hgate.
  destruct (Message_doc_fields (chosen_session req w) (body_get req "message")
              "user" (ver_userId user) w) as (_ & Ht & Hs & _).
  destruct (hd false (faults w)) eqn:Hf1.
  - destruct (chat_handler_first_fails user req w Hf1) as (w' & Heq & Hm & Hu).
    exists w'. auto.
  - cbn [orb] in Hfail.
    destruct (chat_handler_second_fails user req w Hf1 Hfail)
      as (w' & Heq & Hm & Hu).
    exists w'. auto.
Qed.

Lemma chat_store_failure_witness :
  let req := Sim.chat_hello in
  let w := set_faults [false; true] (Sim.empty_world 6000) in
  let user := mkVerified "oid-" "alice" 5 3605 in
  authenticate req w = Next user /\
  hd false (faults w) || hd false (tl (faults w)) = true /\
  exists w' : World,
    chat req w = (mkResponse 500 (ErrorBody "Chat processing failed"), w') /\
    users w' = users w /\
    messages w' = (if hd false (faults w) then messages w
                   else messages w ++ [user_turn user req w]) /\
    user_turn user req w !! "sender" = Some (BStr "user") /\
    user_turn user req w !! "text" = cast_string_path (body_get req "message").
Proof.
  cbv zeta.
  assert (Hgate : authenticate Sim.chat_hello
                    (set_faults [false; true] (Sim.empty_world 6000))
                  = Next (mkVerified "oid-" "alice" 5 3605))
    by (vm_compute; reflexivity).
  split; [exact Hgate|]. split; [reflexivity|].
  exact (chat_store_failure Sim.chat_hello _ _ Hgate eq_refl).
Defined.

(** C7. The response of a chat call is a function of the message alone: it
    is [aiResponse] of the message whatever the caller, the world and the
    platform, so two calls with the same message answer with the same
    string; and the message text occurs in it. *)
Theorem chat_response_pure (P1 P2 : Platform)
    (req1 req2 : Request) (w1 w2 w1' w2' : World) (r1 r2 : Response)
    (s1 s2 : string) (sid1 sid2 : jsval) :
  @chat P1 req1 w1 = (r1, w1') ->
  @chat P2 req2 w2 = (r2, w2') ->
  body r1 = ChatBody s1 sid1 ->
  body r2 = ChatBody s2 sid2 ->
  body_get req1 "message" = body_get req2 "message" ->
  s1 = aiResponse (body_get req1 "message") /\
  s1 = s2 /\
  contains s1 (to_string (body_get req1 "message")).
Proof.
  intros Hrun1 Hrun2 Hb1 Hb2 Hmsg.
  destruct (@chat_inv P1 req1 w1 r1 w1' Hrun1) as (_ & _ & _ & _ & -> & _);
    [right; eauto|].
  destruct (@chat_inv P2 req2 w2 r2 w2' Hrun2) as (_ & _ & _ & _ & -> & _);
    [right; eauto|].
  cbn [body] in Hb1, Hb2. injection Hb1 as <- _. injection Hb2 as <- _.
  split; [reflexivity|]. split; [now rewrite Hmsg|].
  exists ("I received: " +:+ dquote), (dquote +:+ ". This is a mock response.").
  unfold aiResponse. now rewrite !string_app_assoc.
Qed.

Lemma chat_response_pure_witness :
  let r1 := fst (@chat Sim.platform Sim.chat_hello (Sim.empty_world 6000)) in
  let w1' := snd (@chat Sim.platform Sim.chat_hello (Sim.empty_world 6000)) in
  let r2 := fst (@chat Sim.other_platform Sim.bob_hello Sim.bob_world) in
  let w2' := snd (@chat Sim.other_platform Sim.bob_hello Sim.bob_world) in
  let s := aiResponse (JStr "hello") in
  @chat Sim.platform Sim.chat_hello (Sim.empty_world 6000) = (r1, w1') /\
  @chat Sim.other_platform Sim.bob_hello Sim.bob_world = (r2, w2') /\
  body r1 = ChatBody s (JStr "uuid-") /\
  body r2 = ChatBody s (JStr "room") /\
  body_get Sim.chat_hello "message" = body_get Sim.bob_hello "message" /\
  s = aiResponse (body_get Sim.chat_hello "message") /\
  s = s /\
  contains s (to_string (body_get Sim.chat_hello "message")).
Proof.
  cbv zeta.
  assert (H1 : @chat Sim.platform Sim.chat_hello (Sim.empty_world 6000) =
               (fst (@chat Sim.platform Sim.chat_hello (Sim.empty_world 6000)),
                snd (@chat Sim.platform Sim.chat_hello (Sim.empty_world 6000))))
    by (vm_compute; reflexivity).
  assert (H2 : @chat Sim.other_platform Sim.bob_hello Sim.bob_world =
               (fst (@chat Sim.other_platform Sim.bob_hello Sim.bob_world),
                snd (@chat Sim.other_platform Sim.bob_hello Sim.bob_world)))
    by (vm_compute; reflexivity).
  assert (B1 : body (fst (@chat Sim.platform Sim.chat_hello
                            (Sim.empty_world 6000)))
               = ChatBody (aiResponse (JStr "hello")) (JStr "uuid-"))
    by (vm_compute; reflexivity).
  assert (B2 : body (fst (@chat Sim.other_platform Sim.bob_hello Sim.bob_world))
               = ChatBody (aiResponse (JStr "hello")) (JStr "room"))
    by (vm_compute; reflexivity).
  assert (E : body_get Sim.chat_hello "message"
              = body_get Sim.bob_hello "message")
    by (vm_compute; reflexivity).
  split; [exact H1|]. split; [exact H2|]. split; [exact B1|].
  split; [exact B2|]. split; [exact E|].
  exact (chat_response_pure Sim.platform Sim.other_platform
           Sim.chat_hello Sim.bob_hello _ _ _ _ _ _ _ _ _ _ H1 H2 B1 B2 E).
Defined.

(** C8. A UUID is drawn exactly when the [sessionId] of the body is
    undefined.  Any other value, the empty string and [null] included, is
    the [sessionId] given to both appended messages and the one returned. *)
Theorem session_default_only_when_undefined `{Platform}
    (req : Request) (w : World) (user : Verified) :
  authenticate req w = Next user ->
  hd false (faults w) = false ->
  hd false (tl (faults w)) = false ->
  (body_get req "sessionId" = JUndefined <->
   uuid_ctr (snd (chat req w)) <> uuid_ctr w) /\
  (body_get req "sessionId" <> JUndefined ->
   exists (w' : World) (d1 d2 : gmap string bson),
     chat req w =
       (mkResponse 200 (ChatBody (aiResponse (body_get req "message"))
                                 (body_get req "sessionId")), w') /\
     messages w' = messages w ++ [d1; d2] /\
     d1 !! "sessionId" = cast_string_path (body_get req "sessionId") /\
     d2 !! "sessionId" = cast_string_path (body_get req "sessionId") /\
     (body_get req "sessionId" = JStr "" ->
      d1 !! "sessionId" = Some (BStr "") /\ d2 !! "sessionId" = Some (BStr "")) /\
     (body_get req "sessionId" = JNull ->
      d1 !! "sessionId" = Some BNull /\ d2 !! "sessionId" = Some BNull)).
Proof.
  intros Hgate Hf1 Hf2. split.
  - unfold chat, protected. rewrite Hgate, chat_handler_uuid_ctr.
    case_bool_decide; split; intros; (lia || congruence).
  - intros Hgiven. unfold chat, protected. rewrite Hgate.
    destruct (chat_handler_succeeds user req w Hf1 Hf2) as (w' & Heq & Hm & _).
    assert (Hsid : chosen_session req w = body_get req "sessionId").
    { unfold chosen_session. now destruct (body_get req "sessionId"). }
    rewrite Hsid in Heq.
    exists w', (user_turn user req w), (bot_turn user req w).
    split; [exact Heq|]. split; [exact Hm|].
    unfold user_turn, bot_turn. rewrite Hsid.
    destruct (Message_doc_fields (body_get req "sessionId")
                (body_get req "message") "user" (ver_userId user) w)
      as (Hs1 & _).
    destruct (Message_doc_fields (body_get req "sessionId")
                (JStr (aiResponse (body_get req "message"))) "bot"
                (ver_userId user) (set_oid_ctr (S (oid_ctr w)) w))
      as (Hs2 & _).
    split; [exact Hs1|]. split; [exact Hs2|].
    split; intros Hv; rewrite Hs1, Hs2, Hv; split; reflexivity.
Qed.

Lemma session_default_only_when_undefined_witness :
  let req := Sim.chat_request [("message", JStr "hi"); ("sessionId", JNull)] in
  let w := Sim.empty_world 6000 in
  authenticate req w = Next (mkVerified "oid-" "alice" 5 3605) /\
  hd false (faults w) = false /\
  hd false (tl (faults w)) = false /\
  (body_get req "sessionId" = JUndefined <->
   uuid_ctr (snd (chat req w)) <> uuid_ctr w) /\
  body_get req "sessionId" <> JUndefined /\
  (exists (w' : World) (d1 d2 : gmap string bson),
     chat req w =
       (mkResponse 200 (ChatBody (aiResponse (body_get req "message"))
                                 (body_get req "sessionId")), w') /\
     messages w' = messages w ++ [d1; d2] /\
     d1 !! "sessionId" = cast_string_path (body_get req "sessionId") /\
     d2 !! "sessionId" = cast_string_path (body_get req "sessionId") /\
     (body_get req "sessionId" = JStr "" ->
      d1 !! "sessionId" = Some (BStr "") /\ d2 !! "sessionId" = Some (BStr "")) /\
     (body_get req "sessionId" = JNull ->
      d1 !! "sessionId" = Some BNull /\ d2 !! "sessionId" = Some BNull)).
Proof.
  cbv zeta.
  assert (Hgate : authenticate
            (Sim.chat_request [("message", JStr "hi"); ("sessionId", JNull)])
            (Sim.empty_world 6000) = Next (mkVerified "oid-" "alice" 5 3605))
    by (vm_compute; reflexivity).
  split; [exact Hgate|]. split; [reflexivity|]. split; [reflexivity|].
  destruct (session_default_only_when_undefined _ _ _ Hgate eq_refl eq_refl)
    as [Hiff Hgiven].
  split; [exact Hiff|].
  assert (Hne : body_get
            (Sim.chat_request [("message", JStr "hi"); ("sessionId", JNull)])
            "sessionId" <> JUndefined) by (vm_compute; discriminate).
  split; [exact Hne | exact (Hgiven Hne)].
Defined.

(** ** The auth gate *)

Section Gate.
Context `{Platform}.

(** The gate is decided by the token left after the replacement and by what
    [jwt.verify] says of it. *)
Lemma authenticate_token (req : Request) (w : World) (token : string) :
  bearer_token (req_authorization req) = Some token ->
  token <> "" ->
  authenticate req w =
  match jwt_verify token (jwt_secret w) (clock w / 1000) with
  | inr verified => Next verified
  | inl _ => Rejected invalid_token
  end.
Proof.
  intros Htok Hne. unfold authenticate. rewrite Htok.
  destruct (String.eqb_spec token "") as [->|_]; [now destruct Hne|].
  reflexivity.
Qed.

Lemma authenticate_no_token (req : Request) (w : World) :
  bearer_token (req_authorization req) = None \/
  bearer_token (req_authorization req) = Some "" ->
  authenticate req w = Rejected access_denied.
Proof. unfold authenticate. now intros [-> | ->]. Qed.

(** The gate reads the clock and the secret, and nothing of the store. *)
Lemma authenticate_reads (req : Request) (w1 w2 : World) :
  clock w1 = clock w2 ->
  env_JWT_SECRET w1 = env_JWT_SECRET w2 ->
  authenticate req w1 = authenticate req w2.
Proof.
  intros Hc He. unfold authenticate, jwt_secret. now rewrite Hc, He.
Qed.

Lemma bearer_token_prefixed (token : string) :
  bearer_token (Some ("Bearer " +:+ token)) = Some token.
Proof.
  unfold bearer_token. cbn [fmap option_fmap option_map].
  now rewrite replace_first_prefix.
Qed.

End Gate.

(** C3. On a protected route ([me] is [protected me_handler], [chat] is
    [protected chat_handler]): without a credential (no Authorization header,
    or nothing left of it once the prefix is removed) the answer is 401
    [Access denied]; with a credential that [jwt.verify] rejects, for any
    reason, and in particular with an expired token, the answer is 400
    [Invalid token]; with one that verifies, the handler runs with the
    decoded identity.  When the gate rejects, the world is untouched, and
    its verdict does not depend on the users, the messages or the state of
    the store. *)
Theorem auth_gate `{Platform}
    (handler : Verified -> Request -> World -> Response * World)
    (req : Request) (w : World) :
  me = protected me_handler /\ chat = protected chat_handler /\
  (req_authorization req = None \/
   bearer_token (req_authorization req) = Some "" ->
   protected handler req w = (mkResponse 401 (ErrorBody "Access denied"), w)) /\
  (forall (token : string) (e : jwt_error),
     bearer_token (req_authorization req) = Some token -> token <> "" ->
     jwt_verify token (jwt_secret w) (clock w / 1000) = inl e ->
     protected handler req w = (mkResponse 400 (ErrorBody "Invalid token"), w)) /\
  (forall (token : string) (v : Verified),
     bearer_token (req_authorization req) = Some token -> token <> "" ->
     jwt_verify token (jwt_secret w) (clock w / 1000) = inr v ->
     authenticate req w = Next v /\
     protected handler req w = handler v req w) /\
  (jwt_roundtrip ->
   forall (c : Claims) (iat : Z),
     let token := jwt_sign c (jwt_secret w) 3600 iat in
     req_authorization req = Some ("Bearer " +:+ token) -> token <> "" ->
     if clock w / 1000 <? iat + 3600
     then authenticate req w =
          Next (mkVerified (claim_userId c) (claim_username c) iat (iat + 3600))
     else protected handler req w =
          (mkResponse 400 (ErrorBody "Invalid token"), w)) /\
  (forall w2 : World,
     clock w2 = clock w -> env_JWT_SECRET w2 = env_JWT_SECRET w ->
     authenticate req w2 = authenticate req w).
Proof.
  split; [reflexivity|]. split; [reflexivity|].
  split; [|split; [|split; [|split]]].
  - intros Hno. unfold protected. rewrite authenticate_no_token; [reflexivity|].
    destruct Hno as [Hno|Hno]; [left; now rewrite Hno | now right].
  - intros token e Htok Hne Hv. unfold protected.
    rewrite (authenticate_token req w token Htok Hne), Hv. reflexivity.
  - intros token v Htok Hne Hv. unfold protected.
    rewrite (authenticate_token req w token Htok Hne), Hv. now split.
  - intros Hlaw c iat token Hhdr Hne.
    assert (Htok : bearer_token (req_authorization req) = Some token)
      by (rewrite Hhdr; apply bearer_token_prefixed).
    unfold protected. rewrite (authenticate_token req w token Htok Hne).
    unfold token. rewrite Hlaw.
    now destruct (clock w / 1000 <? iat + 3600).
  - intros w2 Hc He. now apply authenticate_reads.
Qed.

Lemma auth_gate_witness :
  let w := Sim.empty_world 4000000 in
  let expired := mkRequest (Sim.bearer Sim.alice_token) ∅ in
  let missing := mkRequest None ∅ in
  let garbled := mkRequest (Some "Bearer abc") ∅ in
  @jwt_roundtrip Sim.platform /\
  me missing w = (mkResponse 401 (ErrorBody "Access denied"), w) /\
  me garbled w = (mkResponse 400 (ErrorBody "Invalid token"), w) /\
  me expired w = (mkResponse 400 (ErrorBody "Invalid token"), w) /\
  authenticate expired (Sim.empty_world 6000) =
    Next (mkVerified "oid-" "alice" 5 3605).
Proof.
  cbv zeta. split; [exact sim_jwt_roundtrip|].
  split; [|split; [|split]].
  - destruct (auth_gate me_handler (mkRequest None ∅)
                (Sim.empty_world 4000000)) as (_ & _ & H401 & _).
    apply H401. left. reflexivity.
  - destruct (auth_gate me_handler (mkRequest (Some "Bearer abc") ∅)
                (Sim.empty_world 4000000)) as (_ & _ & _ & H400 & _).
    apply (H400 "abc" JwtMalformed); [reflexivity | discriminate | reflexivity].
  - destruct (auth_gate me_handler (mkRequest (Sim.bearer Sim.alice_token) ∅)
                (Sim.empty_world 4000000)) as (_ & _ & _ & _ & _ & Hexp & _).
    apply (Hexp sim_jwt_roundtrip Sim.alice 5);
      [reflexivity | vm_compute; discriminate].
  - destruct (auth_gate me_handler (mkRequest (Sim.bearer Sim.alice_token) ∅)
                (Sim.empty_world 6000)) as (_ & _ & _ & _ & _ & Hexp & _).
    apply (Hexp sim_jwt_roundtrip Sim.alice 5);
      [reflexivity | vm_compute; discriminate].
Defined.

(** C9. The gate removes the first occurrence of [Bearer ] from the header
    and no other.  A header that is the bare token, with no occurrence of
    [Bearer ], is judged as the same token behind the prefix is.  The header
    [Bearer], without the space, is a non-empty token: it goes to
    [jwt.verify] and is never answered with the 401 of a missing token. *)
Theorem bearer_prefix_stripping `{Platform}
    (w : World) (fields : gmap string jsval) :
  (forall a b : string,
     (forall a1 a2 : string, a = a1 +:+ a2 -> a2 <> "" ->
        String.prefix "Bearer " (a2 +:+ "Bearer " +:+ b) = false) ->
     bearer_token (Some (a +:+ "Bearer " +:+ b)) = Some (a +:+ b)) /\
  bearer_token (Some "Bearer Bearer x") = Some "Bearer x" /\
  (forall token : string,
     occurs "Bearer " token = false ->
     bearer_token (Some token) = Some token /\
     bearer_token (Some ("Bearer " +:+ token)) = Some token /\
     authenticate (mkRequest (Some token) fields) w =
     authenticate (mkRequest (Some ("Bearer " +:+ token)) fields) w) /\
  bearer_token (Some "Bearer") = Some "Bearer" /\
  authenticate (mkRequest (Some "Bearer") fields) w =
    match jwt_verify "Bearer" (jwt_secret w) (clock w / 1000) with
    | inr verified => Next verified
    | inl _ => Rejected (mkResponse 400 (ErrorBody "Invalid token"))
    end /\
  authenticate (mkRequest (Some "Bearer") fields) w <>
    Rejected (mkResponse 401 (ErrorBody "Access denied")).
Proof.
  split; [|split; [|split; [|split; [|split]]]].
  - intros a b Hfirst. unfold bearer_token.
    cbn [fmap option_fmap option_map]. f_equal.
    now apply replace_first_split.
  - reflexivity.
  - intros token Hocc.
    assert (Hraw : bearer_token (Some token) = Some token).
    { unfold bearer_token. cbn [fmap option_fmap option_map].
      now rewrite replace_first_absent. }
    split; [exact Hraw|]. split; [apply bearer_token_prefixed|].
    unfold authenticate. cbn [req_authorization].
    now rewrite Hraw, bearer_token_prefixed.
  - reflexivity.
  - reflexivity.
  - unfold authenticate. cbn.
    destruct (jwt_verify "Bearer" (jwt_secret w) (clock w / 1000));
      discriminate.
Qed.

Lemma bearer_prefix_stripping_witness :
  let w := Sim.empty_world 6000 in
  occurs "Bearer " Sim.alice_token = false /\
  authenticate (mkRequest (Some Sim.alice_token) ∅) w =
    Next (mkVerified "oid-" "alice" 5 3605) /\
  authenticate (mkRequest (Some Sim.alice_token) ∅) w =
  authenticate (mkRequest (Some ("Bearer " +:+ Sim.alice_token)) ∅) w /\
  authenticate (mkRequest (Some "Bearer") ∅) w = Rejected invalid_token.
Proof.
  cbv zeta.
  assert (Hocc : occurs "Bearer " Sim.alice_token = false)
    by (vm_compute; reflexivity).
  destruct (bearer_prefix_stripping (Sim.empty_world 6000) ∅)
    as (_ & _ & Hraw & _ & Hword & _).
  split; [exact Hocc|]. split; [vm_compute; reflexivity|].
  split; [exact (proj2 (proj2 (Hraw Sim.alice_token Hocc)))|].
  rewrite Hword. vm_compute; reflexivity.
Defined.

(** ** The credential store *)

Lemma find_all_false {A : Type} (f : A -> bool) (l : list A) :
  (forall x, In x l -> f x = false) -> List.find f l = None.
Proof.
  induction l as [|a l IH]; intros Hall; [reflexivity|].
  cbn [List.find]. rewrite (Hall a) by now left.
  apply IH. intros x Hx. apply Hall. now right.
Qed.

Lemma find_some_exists {A : Type} (f : A -> bool) (l : list A) (x : A) :
  In x l -> f x = true -> exists y, List.find f l = Some y.
Proof.
  induction l as [|a l IH]; intros Hin Hf; [destruct Hin|].
  cbn [List.find]. destruct (f a) eqn:Hfa; [eauto|].
  destruct Hin as [->|Hin]; [congruence | now apply IH].
Qed.

(** C10. With a token that verifies, [GET /api/auth/me] answers 500 exactly
    when the lookup fails: the [userId] of the token is no ObjectId, or the
    store is down.  When the lookup works and no stored user has the
    [userId] of the token, the answer is 200 with the body [null]. *)
Theorem me_unknown_user `{Platform}
    (req : Request) (w : World) (v : Verified) :
  authenticate req w = Next v ->
  (status (fst (me req w)) = 500%nat <->
   objectid_valid (ver_userId v) = false \/ hd false (faults w) = true) /\
  (objectid_valid (ver_userId v) = true ->
   hd false (faults w) = false ->
   (forall u, In u (users w) -> user_id u <> ver_userId v) ->
   exists w', me req w = (mkResponse 200 (ProfileBody None), w') /\
              users w' = users w /\ messages w' = messages w).
Proof.
  intros Hgate. unfold me, protected, me_handler. rewrite Hgate.
  route_steps. split.
  - destruct (objectid_valid (ver_userId v)); cbn;
      [destruct (hd false (faults w)); cbn|].
    + split; [now right | reflexivity].
    + split; [discriminate | intros [?|?]; discriminate].
    + split; [now left | reflexivity].
  - intros Hvalid Hf Hnone. rewrite Hvalid. cbn. rewrite Hf.
    rewrite find_all_false.
    + eexists. split; [reflexivity|]. split; reflexivity.
    + intros u Hu. apply String.eqb_neq. now apply Hnone.
Qed.

Lemma me_unknown_user_witness :
  let req := mkRequest (Sim.bearer Sim.alice_token) ∅ in
  let w := Sim.bob_world in
  let w0 := mkWorld (users w) (messages w) 6000 1 4 [] None in
  authenticate req w0 = Next (mkVerified "oid-" "alice" 5 3605) /\
  objectid_valid "oid-" = true /\
  hd false (faults w0) = false /\
  (forall u, In u (users w0) -> user_id u <> "oid-") /\
  (status (fst (me req w0)) = 500%nat <->
   objectid_valid "oid-" = false \/ hd false (faults w0) = true) /\
  exists w', me req w0 = (mkResponse 200 (ProfileBody None), w') /\
             users w' = users w0 /\ messages w' = messages w0.
Proof.
  cbv zeta.
  set (req := mkRequest (Sim.bearer Sim.alice_token) ∅).
  set (w0 := mkWorld (users Sim.bob_world) (messages Sim.bob_world)
               6000 1 4 [] None).
  assert (Hgate : authenticate req w0 = Next (mkVerified "oid-" "alice" 5 3605))
    by (vm_compute; reflexivity).
  assert (Hnone : forall u, In u (users w0) -> user_id u <> "oid-").
  { intros u [<-|[]]. vm_compute. discriminate. }
  destruct (me_unknown_user req w0 _ Hgate) as [Hiff Hnull].
  split; [exact Hgate|]. split; [reflexivity|]. split; [reflexivity|].
  split; [exact Hnone|]. split; [exact Hiff|].
  exact (Hnull eq_refl eq_refl Hnone).
Defined.

Section Credentials.
Context `{Platform}.

Lemma body_get_missing (req : Request) (k : string) :
  req_body req !! k = None -> body_get req k = JUndefined.
Proof. unfold body_get. now intros ->. Qed.

(** The validation of line 58 comes first and does not reach the store. *)
Lemma register_falsy_field (req : Request) (w : World) :
  truthy (body_get req "username") = false \/
  truthy (body_get req "email") = false \/
  truthy (body_get req "password") = false ->
  register req w = (mkResponse 400 (ErrorBody "All fields are required"), w).
Proof.
  intros Hfalsy. unfold register, catching.
  assert (negb (truthy (body_get req "username"))
          || negb (truthy (body_get req "email"))
          || negb (truthy (body_get req "password")) = true) as ->.
  { destruct Hfalsy as [-> | [-> | ->]]; cbn;
      rewrite ?orb_true_r; reflexivity. }
  reflexivity.
Qed.

(** What [register] answers once [findOne] has found a user. *)
Lemma register_existing (req : Request) (w : World) (u0 : User) :
  truthy (body_get req "username") = true ->
  truthy (body_get req "email") = true ->
  truthy (body_get req "password") = true ->
  hd false (faults w) = false ->
  List.find (fun u => query_eq (body_get req "username") (user_username u)
                      || query_eq (body_get req "email") (user_email u))
            (users w) = Some u0 ->
  exists w',
    register req w =
      (mkResponse 409 (ErrorBody
         (if strict_eq (JStr (user_username u0)) (body_get req "username")
          then "Username already exists" else "Email already registered")),
       w') /\
    users w' = users w /\ messages w' = messages w.
Proof.
  intros Hu He Hp Hf Hfind. unfold register. rewrite Hu, He, Hp.
  route_steps. rewrite Hf, Hfind. cbn.
  eexists. split; [reflexivity|]. split; reflexivity.
Qed.

(** What [login] does after the lookup. *)
Lemma login_lookup (req : Request) (w : World) :
  hd false (faults w) = false ->
  exists w', users w' = users w /\ messages w' = messages w /\
  login req w =
  (match List.find (fun u => query_eq (body_get req "email") (user_email u))
                   (users w) with
   | None => mkResponse 401 (ErrorBody "Invalid credentials")
   | Some u =>
       if strict_eq (JStr (user_password u)) (body_get req "password")
       then mkResponse 200
              (AuthBody (jwt_sign (mkClaims (user_id u) (user_username u))
                                  (jwt_secret w) 3600 (clock w / 1000))
                        (user_id u) (user_username u) (user_email u))
       else mkResponse 401 (ErrorBody "Invalid credentials")
   end, w').
Proof.
  intros Hf. unfold login. route_steps. rewrite Hf.
  exists (set_faults (tl (faults w)) w).
  split; [reflexivity|]. split; [reflexivity|].
  destruct (List.find _ (users w)) as [u|]; [|reflexivity].
  destruct (strict_eq (JStr (user_password u)) (body_get req "password"));
    reflexivity.
Qed.

End Credentials.

(** C4. A registration that lacks [username], [email] or [password] is
    answered 400 and nothing is read or written.  A registration with all
    three, whose username or email is that of a stored user, is answered 409
    and no user is created; the message is [Username already exists] when
    the stored user that the lookup returns has that username, and [Email
    already registered] otherwise, in which case that user has that email.
    So a username taken with a free email gives the username message, and an
    email taken with a free username the email message. *)
Theorem register_conflict `{Platform} (req : Request) (w : World) :
  (req_body req !! "username" = None \/ req_body req !! "email" = None \/
   req_body req !! "password" = None ->
   register req w = (mkResponse 400 (ErrorBody "All fields are required"), w)) /\
  (forall uname mail : string,
     body_get req "username" = JStr uname -> uname <> "" ->
     body_get req "email" = JStr mail -> mail <> "" ->
     truthy (body_get req "password") = true ->
     hd false (faults w) = false ->
     (exists u, In u (users w) /\
                (user_username u = uname \/ user_email u = mail)) ->
     exists (u0 : User) (msg : string) (w' : World),
       register req w = (mkResponse 409 (ErrorBody msg), w') /\
       users w' = users w /\
       In u0 (users w) /\
       (msg = "Username already exists" /\ user_username u0 = uname \/
        msg = "Email already registered" /\ user_username u0 <> uname /\
        user_email u0 = mail) /\
       ((forall u, In u (users w) -> user_email u <> mail) ->
        msg = "Username already exists") /\
       ((forall u, In u (users w) -> user_username u <> uname) ->
        msg = "Email already registered")).
Proof.
  split.
  - intros Hmissing. apply register_falsy_field.
    destruct Hmissing as [Hm | [Hm | Hm]];
      rewrite (body_get_missing _ _ Hm); auto.
  - intros uname mail Hu Hune He Hmne Hp Hf (u & Hin & Hdup).
    set (filter := fun x : User => String.eqb uname (user_username x)
                                   || String.eqb mail (user_email x)).
    assert (Hfu : filter u = true).
    { unfold filter. destruct Hdup as [<- | <-];
        rewrite String.eqb_refl, ?orb_true_r; reflexivity. }
    destruct (find_some_exists filter (users w) u Hin Hfu) as (u0 & Hfind).
    destruct (find_some _ _ Hfind) as [Hin0 Hf0].
    destruct (register_existing req w u0) as (w' & Hrun & Husers & _).
    { rewrite Hu. cbn. now apply negb_true_iff, String.eqb_neq. }
    { rewrite He. cbn. now apply negb_true_iff, String.eqb_neq. }
    { exact Hp. }
    { exact Hf. }
    { rewrite Hu, He. exact Hfind. }
    rewrite Hu in Hrun. unfold strict_eq in Hrun.
    exists u0. eexists. exists w'. split; [exact Hrun|].
    split; [exact Husers|]. split; [exact Hin0|].
    unfold filter in Hf0.
    case_bool_decide as Hname.
    + injection Hname as Hname. split; [left; now split|]. split; [reflexivity|].
      intros Hfree. now destruct (Hfree u0 Hin0).
    + assert (Hne : user_username u0 <> uname) by congruence.
      assert (Hmail : user_email u0 = mail).
      { apply orb_true_iff in Hf0 as [Hx | Hx]; apply String.eqb_eq in Hx;
          congruence. }
      split; [right; now repeat split|]. split; [|reflexivity].
      intros Hfree. now destruct (Hfree u0 Hin0).
Qed.

Lemma register_conflict_witness :
  let w := Sim.bob_world in
  req_body Sim.register_no_password !! "password" = None /\
  register Sim.register_no_password w =
    (mkResponse 400 (ErrorBody "All fields are required"), w) /\
  (exists u, In u (users w) /\
             (user_username u = "bob" \/ user_email u = "new@x.com")) /\
  exists w', register Sim.register_bob_again w =
               (mkResponse 409 (ErrorBody "Username already exists"), w') /\
             users w' = users w.
Proof.
  cbv zeta.
  assert (Hmissing : req_body Sim.register_no_password !! "password" = None)
    by (vm_compute; reflexivity).
  assert (Hdup : exists u, In u (users Sim.bob_world) /\
                   (user_username u = "bob" \/ user_email u = "new@x.com")).
  { eexists. split; [left; reflexivity | left; reflexivity]. }
  split; [exact Hmissing|]. split.
  { apply (proj1 (register_conflict Sim.register_no_password Sim.bob_world)).
    right. right. exact Hmissing. }
  split; [exact Hdup|].
  destruct (proj2 (register_conflict Sim.register_bob_again Sim.bob_world)
              "bob" "new@x.com")
    as (u0 & msg & w' & Hrun & Husers & _ & _ & Hname & _);
    [vm_compute; reflexivity | discriminate | vm_compute; reflexivity
    | discriminate | vm_compute; reflexivity | reflexivity | exact Hdup |].
  exists w'. split; [|exact Husers].
  rewrite Hrun, Hname; [reflexivity|].
  intros u [<-|[]]. vm_compute. discriminate.
Defined.

(** C5. A login whose email is that of no stored user, or whose password is
    not the stored password of the user found, is answered 401.  Otherwise
    it is answered 200 with a token and the id, username and email of that
    user; the token verifies when it is issued, and whenever it verifies its
    payload has the username and the id of that user.  The passwords are
    compared as the strings they are. *)
Theorem login_outcomes `{Platform} (req : Request) (w : World) :
  jwt_roundtrip ->
  hd false (faults w) = false ->
  let lookup := List.find (fun u => query_eq (body_get req "email")
                                             (user_email u)) (users w) in
  let denied := mkResponse 401 (ErrorBody "Invalid credentials") in
  (forall mail : string,
     body_get req "email" = JStr mail ->
     (forall u, In u (users w) -> user_email u <> mail) ->
     exists w', login req w = (denied, w') /\ users w' = users w) /\
  (lookup = None ->
   exists w', login req w = (denied, w') /\ users w' = users w) /\
  (forall u : User,
     lookup = Some u ->
     body_get req "password" <> JStr (user_password u) ->
     exists w', login req w = (denied, w') /\ users w' = users w) /\
  (forall u : User,
     lookup = Some u ->
     body_get req "password" = JStr (user_password u) ->
     In u (users w) /\
     (forall mail, body_get req "email" = JStr mail -> user_email u = mail) /\
     exists (token : string) (w' : World),
       login req w =
         (mkResponse 200 (AuthBody token (user_id u) (user_username u)
                                   (user_email u)), w') /\
       users w' = users w /\
       (exists v, jwt_verify token (jwt_secret w) (clock w / 1000) = inr v) /\
       (forall (now : Z) (v : Verified),
          jwt_verify token (jwt_secret w) now = inr v ->
          ver_username v = user_username u /\ ver_userId v = user_id u)).
Proof.
  intros Hlaw Hf lookup denied.
  destruct (login_lookup req w Hf) as (w' & Husers & _ & Hrun).
  fold lookup in Hrun.
  assert (Hnone : lookup = None ->
                  exists w', login req w = (denied, w') /\ users w' = users w).
  { intros Hl. rewrite Hl in Hrun. eauto. }
  split; [|split; [exact Hnone|split]].
  - intros mail Hmail Hfree. apply Hnone. unfold lookup. rewrite Hmail.
    apply find_all_false. intros u Hu. cbn [query_eq].
    apply String.eqb_neq. intros ->. now apply (Hfree u).
  - intros u Hl Hpw. rewrite Hl in Hrun. unfold strict_eq in Hrun.
    rewrite bool_decide_eq_false_2 in Hrun by congruence. eauto.
  - intros u Hl Hpw. rewrite Hl in Hrun. unfold strict_eq in Hrun.
    rewrite bool_decide_eq_true_2 in Hrun by congruence.
    destruct (find_some _ _ Hl) as [Hin Hq].
    split; [exact Hin|]. split.
    { intros mail Hmail. rewrite Hmail in Hq. cbn [query_eq] in Hq.
      symmetry. now apply String.eqb_eq. }
    eexists. exists w'. split; [exact Hrun|]. split; [exact Husers|].
    split.
    + rewrite Hlaw.
      assert ((clock w / 1000 <? clock w / 1000 + 3600) = true) as ->
        by (apply Z.ltb_lt; lia).
      eauto.
    + intros now v. rewrite Hlaw.
      destruct (now <? clock w / 1000 + 3600); intros Hv; [|discriminate].
      injection Hv as <-. split; reflexivity.
Qed.

Lemma login_outcomes_witness :
  let w := Sim.bob_world in
  let bob_user := mkUser "oid-1" "bob" "b@x.com" "pw2" 90000 in
  @jwt_roundtrip Sim.platform /\
  hd false (faults w) = false /\
  List.find (fun u => query_eq (body_get Sim.login_bob "email") (user_email u))
            (users w) = Some bob_user /\
  body_get Sim.login_bob "password" = JStr (user_password bob_user) /\
  exists (token : string) (w' : World),
    login Sim.login_bob w =
      (mkResponse 200 (AuthBody token "oid-1" "bob" "b@x.com"), w') /\
    (forall (now : Z) (v : Verified),
       jwt_verify token (jwt_secret w) now = inr v ->
       ver_username v = "bob" /\ ver_userId v = "oid-1").
Proof.
  cbv zeta.
  assert (Hl : List.find (fun u => query_eq (body_get Sim.login_bob "email")
                                            (user_email u))
                 (users Sim.bob_world)
               = Some (mkUser "oid-1" "bob" "b@x.com" "pw2" 90000))
    by (vm_compute; reflexivity).
  assert (Hpw : body_get Sim.login_bob "password" = JStr "pw2")
    by (vm_compute; reflexivity).
  split; [exact sim_jwt_roundtrip|]. split; [reflexivity|].
  split; [exact Hl|]. split; [exact Hpw|].
  destruct (login_outcomes Sim.login_bob Sim.bob_world sim_jwt_roundtrip eq_refl)
    as (_ & _ & _ & Hgood).
  destruct (Hgood _ Hl Hpw) as (_ & _ & token & w' & Hrun & _ & _ & Hdec).
  exists token, w'. split; [exact Hrun | exact Hdec].
Defined.

(** ** The scenario of the specification, run on the reference platform *)

(** Alice registers, chats with the token she got and no [sessionId], and
    reads her profile: 201, then 200 with a generated session and two stored
    messages, then 200 with her record and no password. *)
Example end_to_end :
  let w0 := Sim.empty_world 5000 in
  let (r1, w1) :=
    register (Sim.form [("username", JStr "alice"); ("email", JStr "a@x.com");
                        ("password", JStr "pw1")]) w0 in
  let (r2, w2) := chat Sim.chat_hello w1 in
  let (r3, w3) := me (mkRequest (Sim.bearer Sim.alice_token) ∅) w2 in
  r1 = mkResponse 201 (AuthBody Sim.alice_token "oid-" "alice" "a@x.com") /\
  r2 = mkResponse 200 (ChatBody (aiResponse (JStr "hello")) (JStr "uuid-")) /\
  contains (aiResponse (JStr "hello")) "hello" /\
  length (messages w3) = 2%nat /\
  r3 = mkResponse 200 (ProfileBody
         (Some (mkUserView "oid-" "alice" "a@x.com" 5000))).
Proof.
  vm_compute. repeat split.
  exists ("I received: " +:+ dquote), (dquote +:+ ". This is a mock response.").
  reflexivity.
Qed.

(** * Further properties of the routes *)

Ltac chat_unfold :=
  unfold catching, bind, Message_create, gen_uuid, ret, get_world, modify,
    store_op, Message_doc; cbn -[insert new_document aiResponse].

(** ** Registration, case by case *)

Section Registration.
Context `{Platform}.

(** Every way [register] can end.  Either it answers 201 and the users
    collection has one more user, built from the cast fields of the body, or
    it answers 400, 409 or 500 and the collection is as it was.  The message
    log is never touched. *)
Lemma register_inv (req : Request) (w : World) (r : Response) (w' : World) :
  register req w = (r, w') ->
  messages w' = messages w /\
  ((exists u : User,
      users w' = users w ++ [u] /\
      r = mkResponse 201 (AuthBody
            (jwt_sign (mkClaims (user_id u) (user_username u)) (jwt_secret w)
                      3600 (clock w / 1000))
            (user_id u) (user_username u) (user_email u)) /\
      user_id u = new_ObjectId (oid_ctr w) /\
      user_createdAt u = clock w /\
      cast_required (body_get req "username") = Some (user_username u) /\
      cast_required (body_get req "email") = Some (user_email u) /\
      cast_required (body_get req "password") = Some (user_password u) /\
      (user_username u <> "" /\ user_email u <> "" /\ user_password u <> "") /\
      existsb (fun x => String.eqb (user_username x) (user_username u)
                        || String.eqb (user_email x) (user_email u))
              (users w) = false /\
      List.find (register_filter req) (users w) = None /\
      hd false (faults w) = false /\ hd false (tl (faults w)) = false) \/
   (users w' = users w /\
    (status r = 400%nat \/ status r = 409%nat \/ status r = 500%nat))).
Proof.
  unfold register, register_filter. intros Hrun.
  destruct (negb (truthy (body_get req "username"))
            || negb (truthy (body_get req "email"))
            || negb (truthy (body_get req "password"))) eqn:Hv.
  { unfold catching, ret in Hrun. simplify_eq. cbn. auto 10. }
  revert Hrun. route_steps.
  destruct (hd false (faults w)) eqn:Hf1; cbn -[jwt_sign jwt_secret Z.div].
  { intros; simplify_eq; cbn; auto 10. }
  destruct (List.find _ (users w)) as [u0|] eqn:Hfind;
    cbn -[jwt_sign jwt_secret Z.div].
  { intros; simplify_eq; cbn; auto 10. }
  unfold required_ok.
  destruct (cast_required (body_get req "username")) as [un|] eqn:Hun;
    cbn -[jwt_sign jwt_secret Z.div];
    [|intros; simplify_eq; cbn; auto 10].
  destruct (String.eqb_spec un ""); cbn -[jwt_sign jwt_secret Z.div];
    [intros; simplify_eq; cbn; auto 10|].
  destruct (cast_required (body_get req "email")) as [em|] eqn:Hem;
    cbn -[jwt_sign jwt_secret Z.div];
    [|intros; simplify_eq; cbn; auto 10].
  destruct (String.eqb_spec em ""); cbn -[jwt_sign jwt_secret Z.div];
    [intros; simplify_eq; cbn; auto 10|].
  destruct (cast_required (body_get req "password")) as [pw|] eqn:Hpw;
    cbn -[jwt_sign jwt_secret Z.div];
    [|intros; simplify_eq; cbn; auto 10].
  destruct (String.eqb_spec pw ""); cbn -[jwt_sign jwt_secret Z.div];
    [intros; simplify_eq; cbn; auto 10|].
  destruct (hd false (tl (faults w))) eqn:Hf2; cbn -[jwt_sign jwt_secret Z.div];
    [intros; simplify_eq; cbn; auto 10|].
  destruct (existsb _ (users w)) eqn:Hdup; cbn -[jwt_sign jwt_secret Z.div];
    [intros; simplify_eq; cbn; auto 10|].
  intros Hrun. simplify_eq. cbn -[jwt_sign jwt_secret Z.div].
  split; [reflexivity|]. left.
  exists (mkUser (new_ObjectId (oid_ctr w)) un em pw (clock w)).
  cbn -[jwt_sign jwt_secret Z.div].
  repeat split; try reflexivity; try assumption.
Qed.

Lemma truthy_string_cast (v : jsval) (s : string) :
  v = JStr s -> s <> "" ->
  truthy v = true /\ cast_required v = Some s.
Proof.
  intros -> Hne. cbn. split; [|reflexivity].
  now apply negb_true_iff, String.eqb_neq.
Qed.

Lemma existsb_all_false {A : Type} (f : A -> bool) (l : list A) :
  (forall x, In x l -> f x = false) -> existsb f l = false.
Proof.
  induction l as [|a l IH]; intros Hall; [reflexivity|].
  cbn [existsb]. rewrite (Hall a) by now left.
  apply IH. intros x Hx. apply Hall. now right.
Qed.

End Registration.

Lemma register_fresh `{Platform}
    (req : Request) (w : World) (un em pw : string) :
  body_get req "username" = JStr un -> un <> "" ->
  body_get req "email" = JStr em -> em <> "" ->
  truthy (body_get req "password") = true ->
  to_string (body_get req "password") = pw -> pw <> "" ->
  hd false (faults w) = false ->
  hd false (tl (faults w)) = false ->
  (forall u, In u (users w) -> user_username u <> un /\ user_email u <> em) ->
  let id := new_ObjectId (oid_ctr w) in
  exists w' : World,
    register req w =
      (mkResponse 201 (AuthBody
         (jwt_sign (mkClaims id un) (jwt_secret w) 3600 (clock w / 1000))
         id un em), w') /\
    users w' = users w ++ [mkUser id un em pw (clock w)] /\
    messages w' = messages w.
Proof.
  intros Hun Hune Hem Heme Hpt Hpw Hpwe Hf1 Hf2 Hfree id.
  assert (Hcast : cast_required (body_get req "password") = Some pw).
  { destruct (body_get req "password"); try discriminate; cbn in *; congruence. }
  unfold register.
  rewrite (proj1 (truthy_string_cast _ _ Hun Hune)).
  rewrite (proj1 (truthy_string_cast _ _ Hem Heme)), Hpt.
  cbn [negb orb]. route_steps. rewrite Hf1.
  rewrite find_all_false.
  2:{ intros u Hu. rewrite Hun, Hem. cbn [query_eq].
      destruct (Hfree u Hu) as [H1 H2]. apply orb_false_iff.
      split; apply String.eqb_neq; congruence. }
  cbn -[jwt_sign jwt_secret Z.div].
  rewrite Hcast, (proj2 (truthy_string_cast _ _ Hun Hune)).
  rewrite (proj2 (truthy_string_cast _ _ Hem Heme)).
  unfold required_ok.
  destruct (String.eqb_spec un "") as [|_]; [contradiction|].
  destruct (String.eqb_spec em "") as [|_]; [contradiction|].
  destruct (String.eqb_spec pw "") as [|_]; [contradiction|].
  cbn -[jwt_sign jwt_secret Z.div]. rewrite Hf2.
  rewrite existsb_all_false.
  2:{ intros u Hu. destruct (Hfree u Hu) as [H1 H2]. apply orb_false_iff.
      split; apply String.eqb_neq; congruence. }
  cbn -[jwt_sign jwt_secret Z.div].
  eexists. split; [reflexivity|]. split; reflexivity.
Qed.

(** X1. A registration with a non-empty string username and email that no
    stored user has, a truthy password and a working store answers 201; the
    collection gains one user with those fields, the password stored as the
    plain string it renders to, and the token is signed for that user. *)
Theorem register_creates_user `{Platform}
    (req : Request) (w : World) (un em pw : string) :
  body_get req "username" = JStr un -> un <> "" ->
  body_get req "email" = JStr em -> em <> "" ->
  truthy (body_get req "password") = true ->
  to_string (body_get req "password") = pw -> pw <> "" ->
  hd false (faults w) = false ->
  hd false (tl (faults w)) = false ->
  (forall u, In u (users w) -> user_username u <> un /\ user_email u <> em) ->
  let id := new_ObjectId (oid_ctr w) in
  exists w' : World,
    register req w =
      (mkResponse 201 (AuthBody
         (jwt_sign (mkClaims id un) (jwt_secret w) 3600 (clock w / 1000))
         id un em), w') /\
    users w' = users w ++ [mkUser id un em pw (clock w)] /\
    messages w' = messages w.
Proof. exact (register_fresh req w un em pw). Qed.

Lemma register_creates_user_witness :
  let w := Sim.bob_world in
  let req := Sim.register_carol in
  (forall u, In u (users w) ->
             user_username u <> "carol" /\ user_email u <> "c@x.com") /\
  exists w' : World,
    register req w =
      (mkResponse 201 (AuthBody
         (jwt_sign (mkClaims "oid-1" "carol") "s3cret" 3600 200)
         "oid-1" "carol" "c@x.com"), w') /\
    users w' = users w ++ [mkUser "oid-1" "carol" "c@x.com" "pw3" 200000] /\
    messages w' = messages w.
Proof.
  cbv zeta.
  assert (Hfree : forall u, In u (users Sim.bob_world) ->
             user_username u <> "carol" /\ user_email u <> "c@x.com").
  { intros u [<-|[]]. split; vm_compute; discriminate. }
  split; [exact Hfree|].
  exact (register_creates_user Sim.register_carol Sim.bob_world
           "carol" "c@x.com" "pw3"
           ltac:(vm_compute; reflexivity) ltac:(discriminate)
           ltac:(vm_compute; reflexivity) ltac:(discriminate)
           ltac:(vm_compute; reflexivity) ltac:(vm_compute; reflexivity)
           ltac:(discriminate) eq_refl eq_refl Hfree).
Defined.

(** X2. Whatever the request and the state of the store, [register] either
    answers 201 and adds exactly one user, who has the id, username and
    email of the response, or answers 400, 409 or 500 and leaves the users
    as they were; it never writes to the message log. *)
Theorem register_all_or_nothing `{Platform}
    (req : Request) (w : World) :
  let r := fst (register req w) in
  let w' := snd (register req w) in
  messages w' = messages w /\
  ((status r = 201%nat /\
    exists (u : User) (token : string),
      users w' = users w ++ [u] /\
      body r = AuthBody token (user_id u) (user_username u) (user_email u)) \/
   ((status r = 400%nat \/ status r = 409%nat \/ status r = 500%nat) /\
    users w' = users w)) /\
  (status r = 201%nat <-> length (users w') = S (length (users w))).
Proof.
  cbv zeta. destruct (register req w) as [r w'] eqn:Hrun. cbn [fst snd].
  destruct (register_inv req w r w' Hrun) as [Hm [Hnew | [Hsame Hst]]].
  - destruct Hnew as (u & Hu & -> & _). split; [exact Hm|]. split.
    + left. split; [reflexivity|]. eauto.
    + rewrite Hu, length_app. cbn. split; intros; [lia | reflexivity].
  - split; [exact Hm|]. split; [right; now split|].
    rewrite Hsame. split; intros; [|lia].
    destruct Hst as [? | [? | ?]]; congruence.
Qed.

(** X3. [register] answers 400 exactly when one of [username], [email] and
    [password] is falsy: missing, [null], [false], [0] or the empty
    string. *)
Theorem register_400_iff_falsy `{Platform} (req : Request) (w : World) :
  status (fst (register req w)) = 400%nat <->
  truthy (body_get req "username") = false \/
  truthy (body_get req "email") = false \/
  truthy (body_get req "password") = false.
Proof.
  split.
  - intros Hst.
    destruct (truthy (body_get req "username")) eqn:Hu; [|now left].
    destruct (truthy (body_get req "email")) eqn:He; [|now right; left].
    destruct (truthy (body_get req "password")) eqn:Hp; [|now right; right].
    exfalso. revert Hst. unfold register. rewrite Hu, He, Hp. cbn [negb orb].
    route_steps.
    repeat (case_match; simplify_eq; cbn -[jwt_sign jwt_secret Z.div] in * );
      discriminate.
  - intros Hfalsy. now rewrite register_falsy_field.
Qed.

(** X4. A registration with three truthy fields answers 500 [Registration
    failed] and creates no user when the store fails at the lookup, or when
    the lookup finds nobody and the store fails at the insertion. *)
Theorem register_store_failure `{Platform} (req : Request) (w : World) :
  truthy (body_get req "username") = true ->
  truthy (body_get req "email") = true ->
  truthy (body_get req "password") = true ->
  hd false (faults w) = true \/
  (hd false (faults w) = false /\
   List.find (register_filter req) (users w) = None /\
   hd false (tl (faults w)) = true) ->
  exists w' : World,
    register req w = (mkResponse 500 (ErrorBody "Registration failed"), w') /\
    users w' = users w /\ messages w' = messages w.
Proof.
  intros Hu He Hp Hfail. unfold register. rewrite Hu, He, Hp.
  cbn [negb orb]. route_steps.
  destruct Hfail as [Hf1 | (Hf1 & Hfind & Hf2)]; rewrite Hf1.
  - eexists. split; [reflexivity|]. split; reflexivity.
  - unfold register_filter in Hfind. rewrite Hfind.
    cbn -[jwt_sign jwt_secret Z.div].
    destruct (required_ok (cast_required (body_get req "username")));
      [|eexists; split; [reflexivity|]; split; reflexivity].
    destruct (required_ok (cast_required (body_get req "email")));
      [|eexists; split; [reflexivity|]; split; reflexivity].
    destruct (required_ok (cast_required (body_get req "password")));
      [|eexists; split; [reflexivity|]; split; reflexivity].
    cbn -[jwt_sign jwt_secret Z.div]. rewrite Hf2.
    eexists. split; [reflexivity|]. split; reflexivity.
Qed.

Lemma register_store_failure_witness :
  let w := set_faults [false; true] Sim.bob_world in
  let req := Sim.register_carol in
  List.find (register_filter req) (users w) = None /\
  exists w' : World,
    register req w = (mkResponse 500 (ErrorBody "Registration failed"), w') /\
    users w' = users w /\ messages w' = messages w.
Proof.
  cbv zeta.
  assert (Hfind : List.find (register_filter Sim.register_carol)
                    (users (set_faults [false; true] Sim.bob_world)) = None)
    by (vm_compute; reflexivity).
  split; [exact Hfind|].
  exact (register_store_failure Sim.register_carol
           (set_faults [false; true] Sim.bob_world)
           ltac:(vm_compute; reflexivity) ltac:(vm_compute; reflexivity)
           ltac:(vm_compute; reflexivity)
           (or_intror (conj eq_refl (conj Hfind eq_refl)))).
Defined.

(** ** Login, case by case *)

Section LoginCases.
Context `{Platform}.

(** Every way [login] can end. *)
Lemma login_inv (req : Request) (w : World) (r : Response) (w' : World) :
  login req w = (r, w') ->
  users w' = users w /\ messages w' = messages w /\
  ((hd false (faults w) = true /\
    r = mkResponse 500 (ErrorBody "Login failed")) \/
   (hd false (faults w) = false /\
    r = mkResponse 401 (ErrorBody "Invalid credentials") /\
    forall u, List.find (fun u => query_eq (body_get req "email")
                                           (user_email u)) (users w) = Some u ->
              body_get req "password" <> JStr (user_password u)) \/
   (hd false (faults w) = false /\
    exists u : User,
      List.find (fun u => query_eq (body_get req "email") (user_email u))
                (users w) = Some u /\
      body_get req "password" = JStr (user_password u) /\
      r = mkResponse 200
            (AuthBody (jwt_sign (mkClaims (user_id u) (user_username u))
                                (jwt_secret w) 3600 (clock w / 1000))
                      (user_id u) (user_username u) (user_email u)))).
Proof.
  unfold login. route_steps.
  destruct (hd false (faults w)) eqn:Hf; cbn -[jwt_sign jwt_secret Z.div].
  { intros; simplify_eq; cbn; auto 10. }
  destruct (List.find _ (users w)) as [u|] eqn:Hfind;
    cbn -[jwt_sign jwt_secret Z.div].
  2:{ intros; simplify_eq; cbn. split; [reflexivity|]. split; [reflexivity|].
      right. left. split; [reflexivity|]. split; [reflexivity|]. discriminate. }
  unfold strict_eq. case_bool_decide as Hpw; cbn -[jwt_sign jwt_secret Z.div];
    intros; simplify_eq; cbn -[jwt_sign jwt_secret Z.div].
  - split; [reflexivity|]. split; [reflexivity|]. right. right.
    split; [reflexivity|]. exists u. auto.
  - split; [reflexivity|]. split; [reflexivity|]. right. left.
    split; [reflexivity|]. split; [reflexivity|].
    intros u' Hu'. simplify_eq. congruence.
Qed.

End LoginCases.

(** X5. [login] answers 200 only when the supplied password is a string
    equal to the stored password of a stored user selected by the email; a
    number or a boolean that renders like the password does not log in.  The
    response then carries the id, username and email of that user. *)
Theorem login_success_needs_password `{Platform}
    (req : Request) (w : World) :
  status (fst (login req w)) = 200%nat ->
  exists (u : User) (token : string),
    In u (users w) /\
    query_eq (body_get req "email") (user_email u) = true /\
    body_get req "password" = JStr (user_password u) /\
    body (fst (login req w)) =
      AuthBody token (user_id u) (user_username u) (user_email u).
Proof.
  destruct (login req w) as [r w'] eqn:Hrun. cbn [fst].
  destruct (login_inv req w r w' Hrun)
    as (_ & _ & [(_ & ->) | [(_ & -> & _) | (_ & u & Hfind & Hpw & ->)]]);
    try discriminate.
  intros _. destruct (find_some _ _ Hfind) as [Hin Hq].
  exists u. eexists. repeat split; (eassumption || reflexivity).
Qed.

Lemma login_success_needs_password_witness :
  status (fst (login Sim.login_bob Sim.bob_world)) = 200%nat /\
  exists (u : User) (token : string),
    In u (users Sim.bob_world) /\
    query_eq (body_get Sim.login_bob "email") (user_email u) = true /\
    body_get Sim.login_bob "password" = JStr (user_password u) /\
    body (fst (login Sim.login_bob Sim.bob_world)) =
      AuthBody token (user_id u) (user_username u) (user_email u).
Proof.
  assert (Hok : status (fst (login Sim.login_bob Sim.bob_world)) = 200%nat)
    by (vm_compute; reflexivity).
  split; [exact Hok|].
  exact (login_success_needs_password Sim.login_bob Sim.bob_world Hok).
Defined.

(** X6. [login] answers 200, 401 or 500, and 500 [Login failed] exactly when
    the lookup in the store fails; it changes neither collection. *)
Theorem login_500_iff_fault `{Platform} (req : Request) (w : World) :
  let r := fst (login req w) in
  let w' := snd (login req w) in
  (status r = 200%nat \/ status r = 401%nat \/ status r = 500%nat) /\
  (status r = 500%nat <-> hd false (faults w) = true) /\
  (status r = 500%nat -> body r = ErrorBody "Login failed") /\
  users w' = users w /\ messages w' = messages w.
Proof.
  cbv zeta. destruct (login req w) as [r w'] eqn:Hrun. cbn [fst snd].
  destruct (login_inv req w r w' Hrun)
    as (Hu & Hm & [(Hf & ->) | [(Hf & -> & _) | (Hf & u & _ & _ & ->)]]);
    cbn [status body]; rewrite Hf;
    (split; [auto|]); (split; [split; intros; (reflexivity || discriminate)|]);
    (split; [intros; (reflexivity || discriminate)|]); now split.
Qed.

(** ** What each route leaves alone *)

Section Footprint.
Context `{Platform}.

Lemma me_footprint (req : Request) (w : World) :
  users (snd (me req w)) = users w /\ messages (snd (me req w)) = messages w.
Proof.
  unfold me, protected, me_handler.
  destruct (authenticate req w) as [r|v]; [now split|].
  route_steps. destruct (objectid_valid (ver_userId v)); [|now split].
  cbn. now destruct (hd false (faults w)).
Qed.

(** The messages a chat call adds: none, the user turn, or both turns. *)
Lemma chat_footprint (req : Request) (w : World) :
  users (snd (chat req w)) = users w /\
  exists ms : list (gmap string bson),
    messages (snd (chat req w)) = messages w ++ ms /\
    (ms = [] \/
     (exists user, ms = [user_turn user req w]) \/
     (exists user, ms = [user_turn user req w; bot_turn user req w])).
Proof.
  unfold chat, protected.
  destruct (authenticate req w) as [r|user].
  { split; [reflexivity|]. exists []. rewrite app_nil_r. auto. }
  destruct (hd false (faults w)) eqn:Hf1.
  { destruct (chat_handler_first_fails user req w Hf1) as (w' & -> & Hm & Hu).
    cbn [snd]. split; [exact Hu|]. exists []. rewrite app_nil_r. auto. }
  destruct (hd false (tl (faults w))) eqn:Hf2.
  { destruct (chat_handler_second_fails user req w Hf1 Hf2)
      as (w' & -> & Hm & Hu).
    cbn [snd]. split; [exact Hu|]. eexists. split; [exact Hm|]. eauto. }
  destruct (chat_handler_succeeds user req w Hf1 Hf2) as (w' & -> & Hm & Hu).
  cbn [snd]. split; [exact Hu|]. eexists. split; [exact Hm|]. eauto.
Qed.

(** The users a step adds: none, or the one a registration created. *)
Lemma step_users (e : event) (w : World) :
  users (step e w) = users w \/
  exists (req : Request) (u : User),
    e = Register req /\ users (step e w) = users w ++ [u] /\
    (user_username u <> "" /\ user_email u <> "" /\ user_password u <> "") /\
    existsb (fun x => String.eqb (user_username x) (user_username u)
                      || String.eqb (user_email x) (user_email u))
            (users w) = false.
Proof.
  destruct e as [req|req|req|req|req|ms|fs]; cbn [step].
  - destruct (register req w) as [r w'] eqn:Hrun. cbn [snd].
    destruct (register_inv req w r w' Hrun) as [_ [Hnew | [Hsame _]]];
      [|now left].
    destruct Hnew as (u & Hu & _ & _ & _ & _ & _ & _ & Hne & Hdup & _).
    right. exists req, u. auto.
  - left. destruct (login req w) as [r w'] eqn:Hrun.
    now destruct (login_inv req w r w' Hrun) as (Hu & _).
  - left. apply me_footprint.
  - now left.
  - left. apply chat_footprint.
  - now left.
  - now left.
Qed.

Lemma step_messages (e : event) (w : World) :
  exists ms : list (gmap string bson),
    messages (step e w) = messages w ++ ms /\
    (ms = [] \/
     (exists req user, e = Chat req /\ ms = [user_turn user req w]) \/
     (exists req user, e = Chat req /\
                       ms = [user_turn user req w; bot_turn user req w])).
Proof.
  assert (Hnone : forall w', messages w' = messages w ->
            exists ms, messages w' = messages w ++ ms /\
              (ms = [] \/
               (exists req user, e = Chat req /\ ms = [user_turn user req w]) \/
               (exists req user, e = Chat req /\
                  ms = [user_turn user req w; bot_turn user req w]))).
  { intros w' Hw'. exists []. rewrite app_nil_r. auto. }
  destruct e as [req|req|req|req|req|ms|fs]; cbn [step];
    try (apply Hnone; reflexivity).
  - apply Hnone. destruct (register req w) as [r w'] eqn:Hrun.
    now destruct (register_inv req w r w' Hrun) as [Hm _].
  - apply Hnone. destruct (login req w) as [r w'] eqn:Hrun.
    now destruct (login_inv req w r w' Hrun) as (_ & Hm & _).
  - apply Hnone. apply me_footprint.
  - destruct (chat_footprint req w) as (_ & ms & Hm & Hshape).
    exists ms. split; [exact Hm|].
    destruct Hshape as [-> | [(user & ->) | (user & ->)]]; eauto 10.
Qed.

End Footprint.

(** X7. [login], [me] and [process-voice] change neither collection; [chat]
    never changes the users and [register] never changes the messages, for
    every request and every state of the store. *)
Theorem route_footprints `{Platform} (req : Request) (w : World) :
  (users (snd (login req w)) = users w /\
   messages (snd (login req w)) = messages w) /\
  (users (snd (me req w)) = users w /\
   messages (snd (me req w)) = messages w) /\
  snd (process_voice req w) = w /\
  users (snd (chat req w)) = users w /\
  messages (snd (register req w)) = messages w.
Proof.
  split; [|split; [|split; [|split]]].
  - destruct (login req w) as [r w'] eqn:Hrun.
    destruct (login_inv req w r w' Hrun) as (Hu & Hm & _). now split.
  - apply me_footprint.
  - reflexivity.
  - apply chat_footprint.
  - destruct (register req w) as [r w'] eqn:Hrun.
    now destruct (register_inv req w r w' Hrun) as [Hm _].
Qed.

Lemma run_append `{Platform} (es : list event) (w : World) :
  exists (us : list User) (ms : list (gmap string bson)),
    users (run es w) = users w ++ us /\
    messages (run es w) = messages w ++ ms.
Proof.
  revert w. induction es as [|e es IH]; intros w.
  - exists [], []. cbn. now rewrite !app_nil_r.
  - cbn [run fold_left]. fold (run es (step e w)).
    destruct (IH (step e w)) as (us & ms & Hu & Hm).
    destruct (step_messages e w) as (ms0 & Hm0 & _).
    rewrite Hu, Hm, Hm0.
    destruct (step_users e w) as [Hu0 | (req & u & _ & Hu0 & _)]; rewrite Hu0.
    + exists us, (ms0 ++ ms). now rewrite app_assoc.
    + exists ([u] ++ us), (ms0 ++ ms). now rewrite !app_assoc.
Qed.

(** X8. Both collections are append-only: after any sequence of requests,
    clock ticks and store faults, the users and the messages that were
    there are still there, unchanged and in the same order, before whatever
    was added. *)
Theorem collections_append_only `{Platform} (es : list event) (w : World) :
  exists (us : list User) (ms : list (gmap string bson)),
    users (run es w) = users w ++ us /\
    messages (run es w) = messages w ++ ms.
Proof. exact (run_append es w). Qed.

(** ** Invariants of the users collection *)

Lemma existsb_false_fresh (us : list User) (u : User) :
  existsb (fun x => String.eqb (user_username x) (user_username u)
                    || String.eqb (user_email x) (user_email u)) us = false ->
  ~ In (user_username u) (map user_username us) /\
  ~ In (user_email u) (map user_email us).
Proof.
  induction us as [|x us IH]; intros Hdup; [now split|].
  cbn [existsb] in Hdup. apply orb_false_iff in Hdup as [Hx Hus].
  apply orb_false_iff in Hx as [Hn He].
  apply String.eqb_neq in Hn, He. destruct (IH Hus) as [IHn IHe].
  split; intros [Heq | Hin]; auto.
Qed.

Lemma unique_users_snoc (us : list User) (u : User) :
  unique_users us ->
  existsb (fun x => String.eqb (user_username x) (user_username u)
                    || String.eqb (user_email x) (user_email u)) us = false ->
  unique_users (us ++ [u]).
Proof.
  intros [Hn He] Hdup. destruct (existsb_false_fresh us u Hdup) as [Fn Fe].
  unfold unique_users. rewrite !map_app. cbn [map].
  split; apply NoDup_app; (split; [assumption|]);
    (split; [|apply NoDup_singleton]);
    intros x Hx Hx'; apply list_elem_of_singleton in Hx'; subst x;
    apply list_elem_of_In in Hx; contradiction.
Qed.

(** X9. No sequence of requests, ticks and faults makes two stored users
    share a username or an email: the uniqueness that holds of the users
    collection holds after any run. *)
Theorem users_stay_unique `{Platform} (es : list event) (w : World) :
  unique_users (users w) -> unique_users (users (run es w)).
Proof.
  revert w. induction es as [|e es IH]; intros w Huniq; [exact Huniq|].
  cbn [run fold_left]. fold (run es (step e w)). apply IH.
  destruct (step_users e w) as [-> | (req & u & _ & -> & _ & Hdup)];
    [exact Huniq | now apply unique_users_snoc].
Qed.

Lemma users_stay_unique_witness :
  unique_users (users Sim.bob_world) /\
  length (users (run Sim.busy_day Sim.bob_world)) = 2%nat /\
  unique_users (users (run Sim.busy_day Sim.bob_world)).
Proof.
  assert (Huniq : unique_users (users Sim.bob_world)).
  { split; cbn; apply NoDup_singleton. }
  split; [exact Huniq|]. split; [vm_compute; reflexivity|].
  exact (users_stay_unique Sim.busy_day Sim.bob_world Huniq).
Defined.

(** X10. No sequence of requests, ticks and faults stores a user with an
    empty username, email or password. *)
Theorem users_keep_fields `{Platform} (es : list event) (w : World) :
  fields_present (users w) -> fields_present (users (run es w)).
Proof.
  revert w. induction es as [|e es IH]; intros w Hok; [exact Hok|].
  cbn [run fold_left]. fold (run es (step e w)). apply IH.
  destruct (step_users e w) as [-> | (req & u & _ & -> & Hne & _)];
    [exact Hok|].
  unfold fields_present. apply Forall_app. split; [exact Hok|].
  apply Forall_cons. split; [exact Hne | apply Forall_nil; exact I].
Qed.

Lemma users_keep_fields_witness :
  fields_present (users Sim.bob_world) /\
  fields_present (users (run Sim.busy_day Sim.bob_world)).
Proof.
  assert (Hok : fields_present (users Sim.bob_world)).
  { apply Forall_cons. split; [|apply Forall_nil; exact I].
    repeat split; discriminate. }
  split; [exact Hok|].
  exact (users_keep_fields Sim.busy_day Sim.bob_world Hok).
Defined.

(** ** Invariant of the message log *)


Lemma chat_turns_fields `{Platform} (user : Verified) (req : Request)
    (w : World) :
  user_turn user req w !! "sender" = Some (BStr "user") /\
  bot_turn user req w !! "sender" = Some (BStr "bot") /\
  user_turn user req w !! "sessionId" = cast_string_path (chosen_session req w) /\
  bot_turn user req w !! "sessionId" = cast_string_path (chosen_session req w).
Proof.
  unfold user_turn, bot_turn.
  destruct (Message_doc_fields (chosen_session req w) (body_get req "message")
              "user" (ver_userId user) w) as (Hs1 & _ & Hd1 & _).
  destruct (Message_doc_fields (chosen_session req w)
              (JStr (aiResponse (body_get req "message")))
              "bot" (ver_userId user) (set_oid_ctr (S (oid_ctr w)) w))
    as (Hs2 & _ & Hd2 & _).
  auto.
Qed.



(** ** Registration, then login *)

Lemma find_app_first {A : Type} (f : A -> bool) (l1 l2 : list A) (x : A) :
  (forall y, In y l1 -> f y = false) -> f x = true ->
  List.find f (l1 ++ x :: l2) = Some x.
Proof.
  induction l1 as [|a l1 IH]; intros Hall Hx; cbn [app List.find].
  - now rewrite Hx.
  - rewrite (Hall a) by now left. apply IH; [|exact Hx].
    intros y Hy. apply Hall. now right.
Qed.

(** X12. A user who registered logs in with the same email and password
    whatever happened on the server in between, as long as the store
    answers: the login is answered 200 with the id, username and email that
    the registration returned. *)
Theorem register_then_login `{Platform}
    (req req2 : Request) (w : World) (un em pw : string) (es : list event) :
  body_get req "username" = JStr un -> un <> "" ->
  body_get req "email" = JStr em -> em <> "" ->
  body_get req "password" = JStr pw -> pw <> "" ->
  hd false (faults w) = false ->
  hd false (tl (faults w)) = false ->
  (forall u, In u (users w) -> user_username u <> un /\ user_email u <> em) ->
  body_get req2 "email" = JStr em ->
  body_get req2 "password" = JStr pw ->
  let w2 := run es (snd (register req w)) in
  hd false (faults w2) = false ->
  exists (token token2 : string) (w3 : World),
    fst (register req w) =
      mkResponse 201 (AuthBody token (new_ObjectId (oid_ctr w)) un em) /\
    login req2 w2 =
      (mkResponse 200 (AuthBody token2 (new_ObjectId (oid_ctr w)) un em), w3).
Proof.
  intros Hun Hune Hem Heme Hpw Hpwe Hf1 Hf2 Hfree Hem2 Hpw2 w2 Hf3.
  destruct (register_fresh req w un em pw Hun Hune Hem Heme)
    as (w1 & Hrun & Hus & _); try assumption.
  { rewrite Hpw. cbn. now apply negb_true_iff, String.eqb_neq. }
  { now rewrite Hpw. }
  unfold w2 in *. clear w2. rewrite Hrun in *. cbn [fst snd] in *.
  destruct (run_append es w1) as (us & _ & Hus2 & _).
  destruct (login_lookup req2 (run es w1) Hf3) as (w3 & _ & _ & Hlogin).
  rewrite Hlogin. rewrite Hus2, Hus, <- app_assoc. cbn [app].
  rewrite Hem2. cbn [query_eq].
  rewrite find_app_first.
  - cbn [user_password user_id user_username user_email].
    rewrite Hpw2. unfold strict_eq.
    rewrite bool_decide_eq_true_2 by reflexivity. eauto.
  - intros u Hu. apply String.eqb_neq. intros ->.
    now destruct (Hfree u Hu).
  - cbn. apply String.eqb_refl.
Qed.

Lemma register_then_login_witness :
  let w := Sim.bob_world in
  let es := [Chat Sim.bob_hello; Tick 5000; Register Sim.register_bob_again] in
  (forall u, In u (users w) ->
             user_username u <> "carol" /\ user_email u <> "c@x.com") /\
  hd false (faults (run es (snd (register Sim.register_carol w)))) = false /\
  exists (token token2 : string) (w3 : World),
    fst (register Sim.register_carol w) =
      mkResponse 201 (AuthBody token "oid-1" "carol" "c@x.com") /\
    login Sim.login_carol (run es (snd (register Sim.register_carol w))) =
      (mkResponse 200 (AuthBody token2 "oid-1" "carol" "c@x.com"), w3).
Proof.
  cbv zeta.
  assert (Hfree : forall u, In u (users Sim.bob_world) ->
             user_username u <> "carol" /\ user_email u <> "c@x.com").
  { intros u [<-|[]]. split; vm_compute; discriminate. }
  assert (Hf3 : hd false (faults (run
             [Chat Sim.bob_hello; Tick 5000; Register Sim.register_bob_again]
             (snd (register Sim.register_carol Sim.bob_world)))) = false)
    by (vm_compute; reflexivity).
  split; [exact Hfree|]. split; [exact Hf3|].
  exact (register_then_login Sim.register_carol Sim.login_carol Sim.bob_world
           "carol" "c@x.com" "pw3" _
           ltac:(vm_compute; reflexivity) ltac:(discriminate)
           ltac:(vm_compute; reflexivity) ltac:(discriminate)
           ltac:(vm_compute; reflexivity) ltac:(discriminate)
           eq_refl eq_refl Hfree
           ltac:(vm_compute; reflexivity) ltac:(vm_compute; reflexivity) Hf3).
Defined.

(** ** What the chat route does not read *)

(** X13. The chat route never reads the users collection: with the same
    request, clock, secret and store faults, the response and the message
    log are the same whatever users are stored.  A caller whose token names
    no stored user chats like any other. *)
Theorem chat_ignores_users `{Platform}
    (req : Request) (w : World) (us : list User) :
  fst (chat req (set_users us w)) = fst (chat req w) /\
  messages (snd (chat req (set_users us w))) = messages (snd (chat req w)).
Proof.
  unfold chat, protected.
  rewrite (authenticate_reads req (set_users us w) w eq_refl eq_refl).
  destruct (authenticate req w) as [r|user]; [now split|].
  unfold chat_handler.
  destruct (body_get req "sessionId"); chat_unfold;
    destruct (hd false (faults w)); cbn; try (split; reflexivity);
    destruct (hd false (tl (faults w))); split; reflexivity.
Qed.

(** X14. Two successful chat calls in a row that give the same explicit
    [sessionId] leave four messages of that session at the end of the log,
    user, bot, user, bot, with the two texts in the order sent: nothing is
    overwritten or merged. *)
Theorem chat_same_session_accumulates `{Platform}
    (req1 req2 : Request) (w w1 w2 : World) (r1 r2 : Response) (sid : jsval) :
  chat req1 w = (r1, w1) -> status r1 = 200%nat ->
  chat req2 w1 = (r2, w2) -> status r2 = 200%nat ->
  body_get req1 "sessionId" = sid -> body_get req2 "sessionId" = sid ->
  sid <> JUndefined ->
  exists u1 b1 u2 b2 : gmap string bson,
    messages w2 = messages w ++ [u1; b1; u2; b2] /\
    Forall (fun d => d !! "sessionId" = cast_string_path sid) [u1; b1; u2; b2] /\
    (fun d : gmap string bson => d !! "sender") <$> [u1; b1; u2; b2]
    = [Some (BStr "user"); Some (BStr "bot");
       Some (BStr "user"); Some (BStr "bot")] /\
    u1 !! "text" = cast_string_path (body_get req1 "message") /\
    u2 !! "text" = cast_string_path (body_get req2 "message").
Proof.
  intros Hrun1 Hok1 Hrun2 Hok2 Hs1 Hs2 Hsid.
  destruct (chat_inv req1 w r1 w1 Hrun1 (or_introl Hok1))
    as (v1 & _ & _ & _ & _ & Hm1 & _).
  destruct (chat_inv req2 w1 r2 w2 Hrun2 (or_introl Hok2))
    as (v2 & _ & _ & _ & _ & Hm2 & _).
  assert (Hc1 : chosen_session req1 w = sid).
  { unfold chosen_session. rewrite Hs1. now destruct sid. }
  assert (Hc2 : chosen_session req2 w1 = sid).
  { unfold chosen_session. rewrite Hs2. now destruct sid. }
  destruct (chat_turns_fields v1 req1 w) as (Hu1 & Hb1 & Hsu1 & Hsb1).
  destruct (chat_turns_fields v2 req2 w1) as (Hu2 & Hb2 & Hsu2 & Hsb2).
  rewrite Hc1 in Hsu1, Hsb1. rewrite Hc2 in Hsu2, Hsb2.
  exists (user_turn v1 req1 w), (bot_turn v1 req1 w),
         (user_turn v2 req2 w1), (bot_turn v2 req2 w1).
  split; [rewrite Hm2, Hm1, <- app_assoc; reflexivity|].
  split; [repeat (apply Forall_cons; split; [assumption|]); now apply Forall_nil|].
  split; [cbn; now rewrite Hu1, Hb1, Hu2, Hb2|].
  unfold user_turn. split; apply Message_doc_fields.
Qed.

Lemma chat_same_session_accumulates_witness :
  let req1 := Sim.bob_hello in
  let req2 := mkRequest (req_authorization Sim.bob_hello)
                (Sim.json_body [("message", JStr "again");
                                ("sessionId", JStr "room")]) in
  let w := Sim.bob_world in
  let w1 := snd (chat req1 w) in
  let w2 := snd (chat req2 w1) in
  status (fst (chat req1 w)) = 200%nat /\
  status (fst (chat req2 w1)) = 200%nat /\
  exists u1 b1 u2 b2 : gmap string bson,
    messages w2 = messages w ++ [u1; b1; u2; b2] /\
    Forall (fun d => d !! "sessionId" = cast_string_path (JStr "room"))
           [u1; b1; u2; b2] /\
    (fun d : gmap string bson => d !! "sender") <$> [u1; b1; u2; b2]
    = [Some (BStr "user"); Some (BStr "bot");
       Some (BStr "user"); Some (BStr "bot")] /\
    u1 !! "text" = cast_string_path (body_get req1 "message") /\
    u2 !! "text" = cast_string_path (body_get req2 "message").
Proof.
  cbv zeta.
  set (req2 := mkRequest (req_authorization Sim.bob_hello)
                 (Sim.json_body [("message", JStr "again");
                                 ("sessionId", JStr "room")])).
  assert (H1 : status (fst (chat Sim.bob_hello Sim.bob_world)) = 200%nat)
    by (vm_compute; reflexivity).
  assert (H2 : status (fst (chat req2 (snd (chat Sim.bob_hello Sim.bob_world))))
               = 200%nat) by (vm_compute; reflexivity).
  split; [exact H1|]. split; [exact H2|].
  exact (chat_same_session_accumulates Sim.bob_hello req2 Sim.bob_world
           _ _ _ _ (JStr "room")
           (surjective_pairing _) H1 (surjective_pairing _) H2
           ltac:(vm_compute; reflexivity) ltac:(vm_compute; reflexivity)
           ltac:(discriminate)).
Defined.

(** ** The fallback secret *)

(** X15. When [JWT_SECRET] is unset or empty, the gate verifies with
    [your-secret-key]: a token that anyone signs with that string, for any
    [userId] and [username], passes the gate until it expires, and the
    handler runs under that identity. *)
Theorem fallback_secret_admits `{Platform}
    (w : World) (c : Claims) (ttl iat : Z) (fields : gmap string jsval) :
  jwt_roundtrip ->
  env_JWT_SECRET w = None \/ env_JWT_SECRET w = Some "" ->
  let token := jwt_sign c "your-secret-key" ttl iat in
  token <> "" ->
  clock w / 1000 < iat + ttl ->
  authenticate (mkRequest (Some ("Bearer " +:+ token)) fields) w =
  Next (mkVerified (claim_userId c) (claim_username c) iat (iat + ttl)).
Proof.
  intros Hlaw Henv token Hne Hnow.
  assert (Hsecret : jwt_secret w = "your-secret-key").
  { unfold jwt_secret. now destruct Henv as [-> | ->]. }
  rewrite (authenticate_token (mkRequest (Some ("Bearer " +:+ token)) fields)
             w token (bearer_token_prefixed token) Hne).
  rewrite Hsecret. unfold token. rewrite Hlaw.
  now rewrite (proj2 (Z.ltb_lt _ _) Hnow).
Qed.

Lemma fallback_secret_admits_witness :
  let w := Sim.empty_world 6000 in
  let mallory := mkClaims "oid-111" "mallory" in
  let token := Sim.sign mallory "your-secret-key" 99 0 in
  @jwt_roundtrip Sim.platform /\
  env_JWT_SECRET w = None /\
  token <> "" /\
  clock w / 1000 < 0 + 99 /\
  authenticate (mkRequest (Some ("Bearer " +:+ token)) ∅) w =
  Next (mkVerified "oid-111" "mallory" 0 99).
Proof.
  cbv zeta. split; [exact sim_jwt_roundtrip|]. split; [reflexivity|].
  assert (Hne : Sim.sign (mkClaims "oid-111" "mallory") "your-secret-key" 99 0
                <> "") by (vm_compute; discriminate).
  assert (Hnow : clock (Sim.empty_world 6000) / 1000 < 0 + 99)
    by (vm_compute; reflexivity).
  split; [exact Hne|]. split; [exact Hnow|].
  exact (fallback_secret_admits (Sim.empty_world 6000)
           (mkClaims "oid-111" "mallory") 99 0 ∅
           sim_jwt_roundtrip (or_introl eq_refl) Hne Hnow).
Defined.

(** ** Login, then the profile *)

Section Environment.
Context `{Platform}.

Lemma register_env (req : Request) (w : World) :
  env_JWT_SECRET (snd (register req w)) = env_JWT_SECRET w.
Proof.
  unfold register. route_steps.
  repeat (case_match; simplify_eq; cbn -[jwt_sign jwt_secret Z.div] in * );
    try reflexivity.
Qed.

Lemma login_env (req : Request) (w : World) :
  env_JWT_SECRET (snd (login req w)) = env_JWT_SECRET w.
Proof.
  unfold login. route_steps.
  repeat (case_match; simplify_eq; cbn -[jwt_sign jwt_secret Z.div] in * );
    try reflexivity.
Qed.

Lemma me_env (req : Request) (w : World) :
  env_JWT_SECRET (snd (me req w)) = env_JWT_SECRET w.
Proof.
  unfold me, protected, me_handler.
  destruct (authenticate req w) as [r|v]; [reflexivity|].
  route_steps. destruct (objectid_valid (ver_userId v)); [|reflexivity].
  cbn. now destruct (hd false (faults w)).
Qed.

Lemma chat_env (req : Request) (w : World) :
  env_JWT_SECRET (snd (chat req w)) = env_JWT_SECRET w.
Proof.
  unfold chat, protected.
  destruct (authenticate req w) as [r|user]; [reflexivity|].
  unfold chat_handler.
  destruct (body_get req "sessionId"); chat_unfold;
    destruct (hd false (faults w)); cbn; try reflexivity;
    destruct (hd false (tl (faults w))); reflexivity.
Qed.

(** The secret is fixed for the life of the process. *)
Lemma run_env (es : list event) (w : World) :
  env_JWT_SECRET (run es w) = env_JWT_SECRET w.
Proof.
  revert w. induction es as [|e es IH]; intros w; [reflexivity|].
  cbn [run fold_left]. fold (run es (step e w)). rewrite IH.
  destruct e; cbn [step];
    auto using register_env, login_env, me_env, chat_env.
Qed.

Lemma find_by_id (us extra : list User) (u : User) :
  NoDup (map user_id us) -> In u us ->
  List.find (fun x => String.eqb (user_id x) (user_id u)) (us ++ extra)
  = Some u.
Proof.
  intros Hnd Hin. apply in_split in Hin as (l1 & l2 & ->).
  rewrite <- app_assoc. cbn [app]. apply find_app_first.
  - intros y Hy. apply String.eqb_neq. intros Heq.
    rewrite map_app in Hnd. cbn [map] in Hnd.
    apply NoDup_app in Hnd as (_ & Hdisj & _).
    apply (Hdisj (user_id y)).
    + apply list_elem_of_In. now apply in_map.
    + rewrite Heq. apply list_elem_of_here.
  - apply String.eqb_refl.
Qed.

End Environment.

(** X16. The token of a successful login opens the profile of the user who
    logged in: presented as [Bearer <token>] within the hour, to a store
    that answers, whatever happened on the server in between, [me] answers
    200 with the id, username and email of the login response, and no
    password.  (The ids of the stored users are distinct and the id is an
    ObjectId, as for users this server created.) *)
Theorem login_then_me `{Platform}
    (req : Request) (w : World) (es : list event)
    (token id un em : string) (fields : gmap string jsval) :
  jwt_roundtrip ->
  fst (login req w) = mkResponse 200 (AuthBody token id un em) ->
  token <> "" ->
  objectid_valid id = true ->
  NoDup (map user_id (users w)) ->
  let w2 := run es (snd (login req w)) in
  clock w2 / 1000 < clock w / 1000 + 3600 ->
  hd false (faults w2) = false ->
  exists (created : Z) (w3 : World),
    me (mkRequest (Some ("Bearer " +:+ token)) fields) w2 =
    (mkResponse 200 (ProfileBody (Some (mkUserView id un em created))), w3).
Proof.
  intros Hlaw Hlogin Hne Hvalid Hnd w2 Hnow Hf.
  destruct (login req w) as [r w1] eqn:Hrun. cbn [fst snd] in *. subst r.
  destruct (login_inv req w _ w1 Hrun)
    as (Hus & _ & [(_ & Hr) | [(_ & Hr & _) | (_ & u & Hfind & _ & Hr)]]);
    try discriminate.
  injection Hr as -> -> -> ->.
  destruct (find_some _ _ Hfind) as [Hin _].
  assert (Hsecret : jwt_secret w2 = jwt_secret w).
  { unfold jwt_secret, w2. rewrite run_env.
    pose proof (login_env req w) as He. rewrite Hrun in He. cbn [snd] in He.
    now rewrite He. }
  destruct (run_append es w1) as (extra & _ & Hus2 & _). fold w2 in Hus2.
  rewrite Hus in Hus2.
  unfold me, protected.
  rewrite (authenticate_token
             (mkRequest (Some ("Bearer " +:+ jwt_sign
                (mkClaims (user_id u) (user_username u)) (jwt_secret w) 3600
                (clock w / 1000))) fields)
             w2 _ (bearer_token_prefixed _) Hne).
  rewrite Hsecret, Hlaw, (proj2 (Z.ltb_lt _ _) Hnow).
  unfold me_handler. route_steps. cbn [ver_userId]. rewrite Hvalid.
  cbn -[jwt_sign jwt_secret Z.div]. rewrite Hf, Hus2.
  rewrite (find_by_id (users w) extra u Hnd Hin).
  cbn. eexists _, _. reflexivity.
Qed.

Lemma login_then_me_witness :
  let w := Sim.bob_world in
  let es := [Chat Sim.bob_hello; Tick 5000; Register Sim.register_carol] in
  let token := Sim.sign Sim.bob "s3cret" 3600 200 in
  @jwt_roundtrip Sim.platform /\
  fst (login Sim.login_bob w) =
    mkResponse 200 (AuthBody token "oid-1" "bob" "b@x.com") /\
  NoDup (map user_id (users w)) /\
  exists (created : Z) (w3 : World),
    me (mkRequest (Some ("Bearer " +:+ token)) ∅)
       (run es (snd (login Sim.login_bob w))) =
    (mkResponse 200 (ProfileBody
       (Some (mkUserView "oid-1" "bob" "b@x.com" created))), w3).
Proof.
  cbv zeta.
  assert (Hlogin : fst (login Sim.login_bob Sim.bob_world) =
            mkResponse 200 (AuthBody (Sim.sign Sim.bob "s3cret" 3600 200)
                                     "oid-1" "bob" "b@x.com"))
    by (vm_compute; reflexivity).
  assert (Hnd : NoDup (map user_id (users Sim.bob_world)))
    by (cbn; apply NoDup_singleton).
  split; [exact sim_jwt_roundtrip|]. split; [exact Hlogin|].
  split; [exact Hnd|].
  exact (login_then_me Sim.login_bob Sim.bob_world
           [Chat Sim.bob_hello; Tick 5000; Register Sim.register_carol]
           _ _ _ _ ∅ sim_jwt_roundtrip Hlogin
           ltac:(vm_compute; discriminate) ltac:(vm_compute; reflexivity) Hnd
           ltac:(vm_compute; reflexivity) ltac:(vm_compute; reflexivity)).
Defined.

(** ** Conflicts and tokens of a registration *)

(** X17. [register] answers 409 only when the lookup returned a stored user
    selected by the username or the email of the request; when both are
    strings, a stored user has that username or that email.  There is no
    conflict without a duplicate. *)
Theorem register_409_means_duplicate `{Platform}
    (req : Request) (w : World) :
  status (fst (register req w)) = 409%nat ->
  exists u : User,
    In u (users w) /\
    register_filter req u = true /\
    (forall un em : string,
       body_get req "username" = JStr un -> body_get req "email" = JStr em ->
       user_username u = un \/ user_email u = em).
Proof.
  unfold register.
  destruct (negb (truthy (body_get req "username"))
            || negb (truthy (body_get req "email"))
            || negb (truthy (body_get req "password"))); [discriminate|].
  route_steps.
  destruct (hd false (faults w)); cbn -[jwt_sign jwt_secret Z.div];
    [discriminate|].
  destruct (List.find _ (users w)) as [u|] eqn:Hfind;
    cbn -[jwt_sign jwt_secret Z.div].
  - intros _. destruct (find_some _ _ Hfind) as [Hin Hq].
    exists u. split; [exact Hin|]. split; [exact Hq|].
    intros un em Hun Hem. rewrite Hun, Hem in Hq. cbn [query_eq] in Hq.
    apply orb_true_iff in Hq as [Hq | Hq]; apply String.eqb_eq in Hq; auto.
  - repeat (case_match; simplify_eq; cbn -[jwt_sign jwt_secret Z.div] in * );
      discriminate.
Qed.

Lemma register_409_means_duplicate_witness :
  status (fst (register Sim.register_bob_again Sim.bob_world)) = 409%nat /\
  exists u : User,
    In u (users Sim.bob_world) /\
    register_filter Sim.register_bob_again u = true /\
    (forall un em : string,
       body_get Sim.register_bob_again "username" = JStr un ->
       body_get Sim.register_bob_again "email" = JStr em ->
       user_username u = un \/ user_email u = em).
Proof.
  assert (Hst : status (fst (register Sim.register_bob_again Sim.bob_world))
                = 409%nat) by (vm_compute; reflexivity).
  split; [exact Hst|].
  exact (register_409_means_duplicate Sim.register_bob_again Sim.bob_world Hst).
Defined.

(** X18. The token of a successful registration is a token of the user just
    created: it verifies at the moment it is issued, and whenever it
    verifies its payload has the id and the username of the response, which
    are those of the user added to the collection. *)
Theorem register_token_identity `{Platform}
    (req : Request) (w : World) (token id un em : string) :
  jwt_roundtrip ->
  fst (register req w) = mkResponse 201 (AuthBody token id un em) ->
  (exists u : User,
     users (snd (register req w)) = users w ++ [u] /\
     user_id u = id /\ user_username u = un /\ user_email u = em) /\
  (exists v, jwt_verify token (jwt_secret w) (clock w / 1000) = inr v) /\
  (forall (now : Z) (v : Verified),
     jwt_verify token (jwt_secret w) now = inr v ->
     ver_userId v = id /\ ver_username v = un /\
     ver_exp v = clock w / 1000 + 3600).
Proof.
  intros Hlaw Hr. destruct (register req w) as [r w'] eqn:Hrun.
  cbn [fst snd] in *. subst r.
  destruct (register_inv req w _ w' Hrun) as [_ [Hnew | [_ Hst]]].
  2:{ cbn in Hst. destruct Hst as [? | [? | ?]]; discriminate. }
  destruct Hnew as (u & Hus & Hbody & _).
  injection Hbody as -> -> -> ->.
  split; [exists u; auto|]. split.
  - rewrite Hlaw.
    assert ((clock w / 1000 <? clock w / 1000 + 3600) = true) as ->
      by (apply Z.ltb_lt; lia).
    eauto.
  - intros now v. rewrite Hlaw.
    destruct (now <? clock w / 1000 + 3600); intros Hv; [|discriminate].
    injection Hv as <-. repeat split.
Qed.

Lemma register_token_identity_witness :
  let token := Sim.sign (mkClaims "oid-1" "carol") "s3cret" 3600 200 in
  @jwt_roundtrip Sim.platform /\
  fst (register Sim.register_carol Sim.bob_world) =
    mkResponse 201 (AuthBody token "oid-1" "carol" "c@x.com") /\
  forall (now : Z) (v : Verified),
    jwt_verify token (jwt_secret Sim.bob_world) now = inr v ->
    ver_userId v = "oid-1" /\ ver_username v = "carol" /\
    ver_exp v = clock Sim.bob_world / 1000 + 3600.
Proof.
  cbv zeta.
  assert (Hr : fst (register Sim.register_carol Sim.bob_world) =
               mkResponse 201 (AuthBody
                 (Sim.sign (mkClaims "oid-1" "carol") "s3cret" 3600 200)
                 "oid-1" "carol" "c@x.com")) by (vm_compute; reflexivity).
  split; [exact sim_jwt_roundtrip|]. split; [exact Hr|].
  exact (proj2 (proj2 (register_token_identity Sim.register_carol Sim.bob_world
                         _ _ _ _ sim_jwt_roundtrip Hr))).
Defined.
